(** * Traild onboarding dashboard: report tables and derived views

    A shallow embedding of [src/onboarding_dashboard.py]: the hard-coded
    report tables (pandas frames built from lists of records), the frame
    operations the chart functions call on them, and the eight chart
    functions as computations over the module's global tables.

    Conventions of the model.
    - A Python [float] is a value of [float] below: an exact rational, the
      two infinities or NaN.  Decimal literals are read exactly, so [1.7]
      is the rational 17/10; signed zeros are not distinguished.
    - An [int64] cell is a [Z]; every number of the report is below 10^5,
      far from the range where the two differ.
    - A frame is columnar, as in pandas: an index and an ordered list of
      named, typed columns.
    - Chart styling (colours, fonts, layout) is left out; a figure keeps
      the data series handed to the charting library. *)

From Stdlib Require Import ZArith QArith Qround Qabs List String Bool Lia Lqa.
From Stdlib Require Import Permutation Sorted SetoidList Morphisms.
Import ListNotations.

Local Open Scope string_scope.
Local Open Scope Z_scope.

(** ** Python values *)

Inductive float : Type :=
| Finite (q : Q)
| PosInf
| NegInf
| NaN.

Inductive scalar : Type :=
| Int (z : Z)
| Float (f : float)
| Str (s : string).

(** The exceptions of the Python run time that the frame operations can
    raise.  [IntCastingNaNError] is pandas' subclass of [ValueError]. *)
Inductive exn : Type :=
| KeyError (k : scalar)
| TypeError
| IntCastingNaNError
| ZeroDivisionError.

Inductive result (A : Type) : Type :=
| Ok (a : A)
| Raise (e : exn).
Arguments Ok {A} a.
Arguments Raise {A} e.

Definition rbind {A B} (r : result A) (k : A -> result B) : result B :=
  match r with
  | Ok a => k a
  | Raise e => Raise e
  end.

Declare Scope result_scope.
Delimit Scope result_scope with result.
Notation "x <- r ;; k" := (rbind r (fun x => k))
  (at level 61, r at next level, right associativity) : result_scope.

(** ** Float arithmetic (IEEE behaviour on the special values) *)

Module F.

Definition Qltb (a b : Q) : bool := negb (Qle_bool b a).
Definition Qis0 (a : Q) : bool := Qeq_bool a 0.

Definition isnan (x : float) : bool :=
  match x with NaN => true | _ => false end.

Definition isfinite (x : float) : bool :=
  match x with Finite _ => true | _ => false end.

Definition neg (x : float) : float :=
  match x with
  | Finite q => Finite (- q)
  | PosInf => NegInf
  | NegInf => PosInf
  | NaN => NaN
  end.

Definition add (x y : float) : float :=
  match x, y with
  | NaN, _ | _, NaN => NaN
  | Finite a, Finite b => Finite (a + b)
  | PosInf, NegInf | NegInf, PosInf => NaN
  | PosInf, _ | _, PosInf => PosInf
  | NegInf, _ | _, NegInf => NegInf
  end.

(** The infinity with the sign of [q], NaN when [q] is zero. *)
Definition signed_inf (q : Q) : float :=
  if Qis0 q then NaN else if Qltb 0 q then PosInf else NegInf.

Definition mul (x y : float) : float :=
  match x, y with
  | NaN, _ | _, NaN => NaN
  | Finite a, Finite b => Finite (a * b)
  | Finite a, PosInf | PosInf, Finite a => signed_inf a
  | Finite a, NegInf | NegInf, Finite a => neg (signed_inf a)
  | PosInf, PosInf | NegInf, NegInf => PosInf
  | PosInf, NegInf | NegInf, PosInf => NegInf
  end.

Definition div (x y : float) : float :=
  match x, y with
  | NaN, _ | _, NaN => NaN
  | Finite a, Finite b => if Qis0 b then signed_inf a else Finite (a / b)
  | Finite _, _ => Finite 0
  | PosInf, Finite b => if Qltb b 0 then NegInf else PosInf
  | NegInf, Finite b => if Qltb b 0 then PosInf else NegInf
  | _, _ => NaN
  end.

(** The order numpy sorts by, on values that are not NaN. *)
Definition ltb (x y : float) : bool :=
  match x, y with
  | NaN, _ | _, NaN => false
  | Finite a, Finite b => Qltb a b
  | NegInf, NegInf => false
  | NegInf, _ => true
  | _, NegInf => false
  | PosInf, _ => false
  | Finite _, PosInf => true
  end.

(** Round half to even, as numpy's [round] does. *)
Definition round_half_even (q : Q) : Z :=
  let f := Qfloor q in
  let r := (q - inject_Z f)%Q in
  if Qltb r (1 # 2) then f
  else if Qltb (1 # 2) r then f + 1
  else if Z.even f then f else f + 1.

Definition round (x : float) : float :=
  match x with
  | Finite q => Finite (inject_Z (round_half_even q))
  | _ => x
  end.

(** Truncation toward zero, the integer cast of a finite float. *)
Definition trunc (q : Q) : Z := Z.quot (Qnum q) (Zpos (Qden q)).

Definition of_Z (z : Z) : float := Finite (inject_Z z).

End F.

(** ** Columns and frames *)

(** A column carries its dtype: [int64], [float64] or [object] (strings). *)
Inductive column : Type :=
| IntCol (l : list Z)
| FloatCol (l : list float)
| ObjCol (l : list string).

Record DataFrame : Type := mkDataFrame {
  index : list nat;
  columns : list (string * column)
}.

(** A transformation of the rows, applied to a column whatever its dtype. *)
Definition col_apply (f : forall A : Type, list A -> list A) (c : column) : column :=
  match c with
  | IntCol l => IntCol (f Z l)
  | FloatCol l => FloatCol (f float l)
  | ObjCol l => ObjCol (f string l)
  end.

(** The cells of a column as Python values, for iteration and [zip]. *)
Definition col_values (c : column) : list scalar :=
  match c with
  | IntCol l => map Int l
  | FloatCol l => map Float l
  | ObjCol l => map Str l
  end.

(** The record types a frame is built from: each says how a list of its
    records is laid out in columns (the keys of the dict literals, in
    order, with the dtype pandas infers for them). *)
Class Records (R : Type) : Type :=
  to_columns : list R -> list (string * column).

(** [pd.DataFrame(records)]: a range index and one column per key.  An
    empty list of records has no keys, hence no columns.  Nothing is
    checked: the call returns a frame for every list of records. *)
Definition pd_DataFrame {R} `{Records R} (records : list R) : result DataFrame :=
  match records with
  | [] => Ok (mkDataFrame [] [])
  | _ => Ok (mkDataFrame (seq 0 (length records)) (to_columns records))
  end.

Fixpoint assoc {V} (k : string) (kvs : list (string * V)) : option V :=
  match kvs with
  | [] => None
  | (k', v) :: rest => if String.eqb k' k then Some v else assoc k rest
  end.

(** [df[k]] *)
Definition getitem (df : DataFrame) (k : string) : result column :=
  match assoc k (columns df) with
  | Some c => Ok c
  | None => Raise (KeyError (Str k))
  end.

Fixpoint set_column (k : string) (c : column) (cols : list (string * column))
  : list (string * column) :=
  match cols with
  | [] => [(k, c)]
  | (k', c') :: rest =>
      if String.eqb k' k then (k, c) :: rest else (k', c') :: set_column k c rest
  end.

(** [df[k] = c], where [c] is a series over the index of [df]: an existing
    column is replaced in place, a new one is appended. *)
Definition setitem (df : DataFrame) (k : string) (c : column) : DataFrame :=
  mkDataFrame (index df) (set_column k c (columns df)).

(** The rows at the given positions, in that order.  Positions come from
    an ordering of the frame's own rows and are in range. *)
Definition take_list (p : list nat) (A : Type) (l : list A) : list A :=
  flat_map (fun i => match nth_error l i with Some x => [x] | None => [] end) p.

Definition take (df : DataFrame) (p : list nat) : DataFrame :=
  mkDataFrame (take_list p nat (index df))
              (map (fun kc => (fst kc, col_apply (take_list p) (snd kc))) (columns df)).

(** [df.iloc[::-1]] *)
Definition iloc_reversed (df : DataFrame) : DataFrame :=
  mkDataFrame (rev (index df))
              (map (fun kc => (fst kc, col_apply (@rev) (snd kc))) (columns df)).

(** [df.reset_index(drop=True)] *)
Definition reset_index (df : DataFrame) : DataFrame :=
  mkDataFrame (seq 0 (length (index df))) (columns df).

(** ** Series arithmetic *)

Definition as_floats (c : column) : result (list float) :=
  match c with
  | IntCol l => Ok (map F.of_Z l)
  | FloatCol l => Ok l
  | ObjCol [] => Ok []
  | ObjCol _ => Raise TypeError
  end.

Definition as_float (s : scalar) : result float :=
  match s with
  | Int z => Ok (F.of_Z z)
  | Float f => Ok f
  | Str _ => Raise TypeError
  end.

(** [series.sum()]: NaN cells are skipped; strings concatenate, and the
    empty sum is the integer zero. *)
Definition series_sum (c : column) : scalar :=
  match c with
  | IntCol l => Int (fold_left Z.add l 0)
  | FloatCol l =>
      Float (fold_left F.add (filter (fun x => negb (F.isnan x)) l) (Finite 0))
  | ObjCol [] => Int 0
  | ObjCol l => Str (String.concat "" l)
  end.

(** [series / s]: true division, cell by cell.  A zero divisor raises
    nothing: the cells become infinities or NaN. *)
Definition truediv (c : column) (s : scalar) : result (list float) :=
  (xs <- as_floats c ;;
   d <- as_float s ;;
   Ok (map (fun x => F.div x d) xs))%result.

(** [series * k] on a float series *)
Definition times (xs : list float) (k : Z) : list float :=
  map (fun x => F.mul x (F.of_Z k)) xs.

(** [series.round(0)] *)
Definition round0 (xs : list float) : list float := map F.round xs.

(** [series.astype(int)]: refused as soon as one cell is not finite. *)
Definition astype_int (xs : list float) : result (list Z) :=
  if forallb F.isfinite xs
  then Ok (map (fun x => match x with Finite q => F.trunc q | _ => 0 end) xs)
  else Raise IntCastingNaNError.

(** ** Sorting *)

(** A sorting algorithm of the array library (the [kind] argument of
    [sort_values]): it rearranges a list given a strict comparison. *)
Definition sorter : Type := forall A : Type, (A -> A -> bool) -> list A -> list A.

(** What the library promises of every [kind]: the result is a
    rearrangement of the input in which no element is followed by a
    strictly smaller one.  The order among equal keys is promised only by
    the kinds documented as stable, which [quicksort], the default, is not. *)
Definition ascending_by {A} (lt : A -> A -> bool) (l : list A) : Prop :=
  StronglySorted (fun a b => lt b a = false) l.

(** The comparison orders the elements of [l] as a strict weak order. *)
Definition strict_weak_on {A} (lt : A -> A -> bool) (l : list A) : Prop :=
  (forall a b, In a l -> In b l -> lt a b = true -> lt b a = false) /\
  (forall a b c, In a l -> In b l -> In c l ->
     lt a b = false -> lt b c = false -> lt a c = false).

Record sorter_contract (kind : sorter) : Prop := {
  sorted_permutation :
    forall A (lt : A -> A -> bool) (l : list A), Permutation (kind A lt l) l;
  sorted_ascending :
    forall A (lt : A -> A -> bool) (l : list A),
      strict_weak_on lt l -> ascending_by lt (kind A lt l)
}.

(** Insertion sort, the array library's generic routine for short arrays: each
    element in turn moves left past the elements strictly greater than it.
    The sorted prefix is kept with its last element first. *)
Fixpoint insert_back {A} (lt : A -> A -> bool) (x : A) (prefix : list A) : list A :=
  match prefix with
  | [] => [x]
  | y :: rest => if lt x y then y :: insert_back lt x rest else x :: prefix
  end.

Definition insertion_sort : sorter :=
  fun A lt l => rev (fold_left (fun prefix x => insert_back lt x prefix) l []).

(** [cmp] decides when an element moves past another in an insertion; it
    agrees with the order [lt] on the elements of [l]. *)
Definition moves_by {A} (lt cmp : A -> A -> bool) (l : list A) : Prop :=
  (forall x y, In x l -> In y l -> cmp x y = true -> lt y x = false) /\
  (forall x y, In x l -> In y l -> cmp x y = false -> lt x y = false) /\
  (forall a b c, In a l -> In b l -> In c l ->
     lt a b = false -> lt b c = false -> lt a c = false).

(** A sort that is not stable: insertion that also moves past equal keys. *)
Definition insertion_sort_past_equal : sorter :=
  fun A lt l => insertion_sort A (fun a b => negb (lt b a)) l.

Section Argsort.
Context {A : Type} (lt : A -> A -> bool) (isna : A -> bool).

Definition lt_key (a b : A * nat) : bool := lt (fst a) (fst b).

(** pandas' [nargsort]: the positions of the cells in sorted order, the
    missing cells last.  For a descending order the cells are reversed
    before and after an ascending sort. *)
Definition nargsort (kind : sorter) (items : list A) (ascending : bool) : list nat :=
  let cells := combine items (seq 0 (length items)) in
  let non_nans := filter (fun c => negb (isna (fst c))) cells in
  let nan_idx := map snd (filter (fun c => isna (fst c)) cells) in
  let non_nans := if ascending then non_nans else rev non_nans in
  let indexer := map snd (kind (A * nat)%type lt_key non_nans) in
  let indexer := if ascending then indexer else rev indexer in
  indexer ++ nan_idx.
End Argsort.

Definition column_argsort (kind : sorter) (c : column) (ascending : bool) : list nat :=
  match c with
  | IntCol l => nargsort Z.ltb (fun _ => false) kind l ascending
  | FloatCol l => nargsort F.ltb F.isnan kind l ascending
  | ObjCol l => nargsort String.ltb (fun _ => false) kind l ascending
  end.

(** [df.sort_values(by, ascending=..., kind=...)]: a new frame; [df] is
    left as it is. *)
Definition sort_values (kind : sorter) (df : DataFrame) (by_ : string) (ascending : bool)
  : result DataFrame :=
  (c <- getitem df by_ ;;
   Ok (take df (column_argsort kind c ascending)))%result.

(** ** The report tables *)

(** One record type per table, with the keys of its dict literals. *)

Module Seg.
Record row := { Live_Status : string; Status : string; Category : string;
                N : Z; ACV : float }.
End Seg.

Module Erp.
Record row := { ERP : string; N : Z; Average : Z; Median : Z }.
End Erp.

Module Cohort.
Record row := { Month : string; Avg_Days : Z }.
End Cohort.

Module Dist.
Record row := { Bin : string; Count : Z; Pct : Z }.
End Dist.

Module Acv.
Record row := { ACV_Band : string; Avg_Days : Z; N : Z; Avg_ACV : Z }.
End Acv.

Module NonLive.
Record row := { Category : string; ACV : float; N : Z }.
End NonLive.

Module AtRisk.
Record row := { Reason : string; Count : Z }.
End AtRisk.

#[export] Instance seg_records : Records Seg.row := fun rs =>
  [("Live Status", ObjCol (map Seg.Live_Status rs));
   ("Status", ObjCol (map Seg.Status rs));
   ("Category", ObjCol (map Seg.Category rs));
   ("N", IntCol (map Seg.N rs));
   ("ACV", FloatCol (map Seg.ACV rs))].

#[export] Instance erp_records : Records Erp.row := fun rs =>
  [("ERP", ObjCol (map Erp.ERP rs));
   ("N", IntCol (map Erp.N rs));
   ("Average", IntCol (map Erp.Average rs));
   ("Median", IntCol (map Erp.Median rs))].

#[export] Instance cohort_records : Records Cohort.row := fun rs =>
  [("Month", ObjCol (map Cohort.Month rs));
   ("Avg_Days", IntCol (map Cohort.Avg_Days rs))].

#[export] Instance dist_records : Records Dist.row := fun rs =>
  [("Bin", ObjCol (map Dist.Bin rs));
   ("Count", IntCol (map Dist.Count rs));
   ("Pct", IntCol (map Dist.Pct rs))].

#[export] Instance acv_records : Records Acv.row := fun rs =>
  [("ACV_Band", ObjCol (map Acv.ACV_Band rs));
   ("Avg_Days", IntCol (map Acv.Avg_Days rs));
   ("N", IntCol (map Acv.N rs));
   ("Avg_ACV", IntCol (map Acv.Avg_ACV rs))].

#[export] Instance non_live_records : Records NonLive.row := fun rs =>
  [("Category", ObjCol (map NonLive.Category rs));
   ("ACV", FloatCol (map NonLive.ACV rs));
   ("N", IntCol (map NonLive.N rs))].

#[export] Instance at_risk_records : Records AtRisk.row := fun rs =>
  [("Reason", ObjCol (map AtRisk.Reason rs));
   ("Count", IntCol (map AtRisk.Count rs))].

Definition COLORS : list (string * string) :=
  [("blue", "#1f77b4"); ("orange", "#ff7f0e"); ("gray", "#7f7f7f");
   ("green", "#2ca02c"); ("red", "#d62728"); ("light_blue", "#aec7e8");
   ("light_orange", "#ffbb78"); ("purple", "#9467bd"); ("teal", "#17becf")].

(** [d[k]] on a dict *)
Definition dict_get {V} (d : list (string * V)) (k : string) : result V :=
  match assoc k d with
  | Some v => Ok v
  | None => Raise (KeyError (Str k))
  end.

Definition kpi_literal : list (string * scalar) :=
  [("avg_onboarding", Int 73);
   ("median_onboarding", Int 49);
   ("pct_under_20", Int 29);
   ("pct_20_to_40", Int 11);
   ("at_risk_customers", Int 72);
   ("at_risk_acv", Float (Finite 1.3))].

Definition segmentation_records : list Seg.row :=
  [Seg.Build_row "Live" "Active" "Live-Active" 96 (Finite 1.7);
   Seg.Build_row "Live" "Churned" "Live-Churned" 1 (Finite 0.02);
   Seg.Build_row "Not Live" "Active" "Never Onboarded" 2 (Finite 0.02);
   Seg.Build_row "Not Live" "Active" "On Hold" 90 (Finite 2.3);
   Seg.Build_row "Not Live" "Active" "At Risk" 72 (Finite 1.3);
   Seg.Build_row "Not Live" "Active" "Low Risk" 97 (Finite 3.3);
   Seg.Build_row "Not Live" "Churned" "Not Live-Churned" 11 (Finite 0.3)].

Definition erp_records_literal : list Erp.row :=
  [Erp.Build_row "mb (MYOB)" 45 79 43;
   Erp.Build_row "so (Syspro)" 23 96 75;
   Erp.Build_row "at (Acumatica)" 11 19 10;
   Erp.Build_row "xo (Xero)" 6 29 29;
   Erp.Build_row "eo" 5 60 48].

Definition cohort_records_literal : list Cohort.row :=
  [Cohort.Build_row "Oct-24" 65;
   Cohort.Build_row "Nov-24" 68;
   Cohort.Build_row "Dec-24" 74;
   Cohort.Build_row "Jan-25" 88].

Definition distribution_records : list Dist.row :=
  [Dist.Build_row "0-20" 28 29;
   Dist.Build_row "20-40" 10 11;
   Dist.Build_row "40-60" 15 16;
   Dist.Build_row "60-80" 8 8;
   Dist.Build_row "80-100" 6 6;
   Dist.Build_row "100+" 28 29].

Definition acv_onboarding_records : list Acv.row :=
  [Acv.Build_row "<$5K" 42 11 3864;
   Acv.Build_row "$5K-$10K" 62 21 6911;
   Acv.Build_row "$10K-$25K" 68 44 15294;
   Acv.Build_row "$25K-$50K" 115 14 36667;
   Acv.Build_row "$50K+" 116 5 69058].

Definition non_live_records_literal : list NonLive.row :=
  [NonLive.Build_row "Never Onboarded" (Finite 0.023) 2;
   NonLive.Build_row "On Hold" (Finite 2.3) 90;
   NonLive.Build_row "At Risk" (Finite 1.3) 72;
   NonLive.Build_row "Low Risk" (Finite 3.3) 97].

Definition at_risk_records_literal : list AtRisk.row :=
  [AtRisk.Build_row "No incoming comms" 54;
   AtRisk.Build_row "Low response / other risk" 18].

(** The module's global tables. *)
Record Dataset : Type := mkDataset {
  kpi_data : list (string * scalar);
  segmentation_data : DataFrame;
  erp_data : DataFrame;
  cohort_data : DataFrame;
  distribution_data : DataFrame;
  acv_onboarding_data : DataFrame;
  non_live_data : DataFrame;
  at_risk_breakdown : DataFrame
}.

(** The tables of a data set, in the order the module defines them. *)
Definition tables (ds : Dataset) : list DataFrame :=
  [segmentation_data ds; erp_data ds; cohort_data ds; distribution_data ds;
   acv_onboarding_data ds; non_live_data ds; at_risk_breakdown ds].

(** The top of the module: the tables are built one after the other. *)
Definition module_tables : result Dataset :=
  (seg <- pd_DataFrame segmentation_records ;;
   erp <- pd_DataFrame erp_records_literal ;;
   cohort <- pd_DataFrame cohort_records_literal ;;
   dist <- pd_DataFrame distribution_records ;;
   acv <- pd_DataFrame acv_onboarding_records ;;
   non_live <- pd_DataFrame non_live_records_literal ;;
   at_risk <- pd_DataFrame at_risk_records_literal ;;
   Ok (mkDataset kpi_literal seg erp cohort dist acv non_live at_risk))%result.

(** ** Computations over the global tables *)

(** A chart function reads the global tables, may assign into one of them
    and may raise; what it assigned stays assigned when it raises. *)
Definition M (A : Type) : Type := Dataset -> result A * Dataset.

Definition ret {A} (a : A) : M A := fun ds => (Ok a, ds).

Definition bind {A B} (m : M A) (k : A -> M B) : M B :=
  fun ds =>
    match m ds with
    | (Ok a, ds') => k a ds'
    | (Raise e, ds') => (Raise e, ds')
    end.

Definition lift {A} (r : result A) : M A := fun ds => (r, ds).

Definition global {A} (table : Dataset -> A) : M A := fun ds => (Ok (table ds), ds).

(** In-place update of the frame bound to [acv_onboarding_data]. *)
Definition update_acv_onboarding_data (f : DataFrame -> DataFrame) : M unit :=
  fun ds =>
    (Ok tt,
     mkDataset (kpi_data ds) (segmentation_data ds) (erp_data ds) (cohort_data ds)
               (distribution_data ds) (f (acv_onboarding_data ds))
               (non_live_data ds) (at_risk_breakdown ds)).

Declare Scope chart_scope.
Delimit Scope chart_scope with chart.
Notation "x <~ m ;; k" := (bind m (fun x => k))
  (at level 61, m at next level, right associativity) : chart_scope.

(** ** Figures *)

(** An f-string kept as its parts: literal text and interpolated values. *)
Inductive part : Type :=
| Lit (s : string)
| Val (v : scalar).

Definition fstring : Type := list part.

Inductive series : Type :=
| Values (l : list scalar)
| Labels (l : list fstring).

Inductive trace : Type :=
| Indicator (value : Z) (title suffix : string)
| Treemap (labels parents : list string) (values : list float) (colors : list string)
| Bar (x y : series) (marker_color : list string) (text : series)
      (customdata : list (scalar * scalar))
| Scatter (x y : series) (text : series).

Definition Figure : Type := list trace.

(** ** Rows of a frame *)

(** [row[k]] for the row at position [i]. *)
Definition row_at (df : DataFrame) (i : nat) (k : string) : result scalar :=
  (c <- getitem df k ;;
   match nth_error (col_values c) i with
   | Some v => Ok v
   | None => Raise (KeyError (Str k))
   end)%result.

(** [df.iterrows()], each row as its accessor. *)
Definition iterrows (df : DataFrame) : list (string -> result scalar) :=
  map (row_at df) (seq 0 (length (index df))).

(** A list comprehension whose body may raise. *)
Fixpoint comprehension {A B} (body : A -> result B) (l : list A) : result (list B) :=
  match l with
  | [] => Ok []
  | a :: rest =>
      (b <- body a ;;
       bs <- comprehension body rest ;;
       Ok (b :: bs))%result
  end.

(** [zip] of two columns *)
Definition zip (a b : column) : list (scalar * scalar) :=
  combine (col_values a) (col_values b).

(** ** The segmentation hierarchy *)

Definition segmentation_labels : list string :=
  ["All Customers";
   "Live (N=97, $1.7M)"; "Not Live (N=272, $7.3M)";
   "Live-Active (N=96)"; "Live-Churned (N=1)";
   "Not Live-Active (N=261)"; "Not Live-Churned (N=11)";
   "Never Onboarded (N=2)"; "On Hold (N=90)"; "At Risk (N=72)"; "Low Risk (N=97)"].

Definition segmentation_parents : list string :=
  [EmptyString;
   "All Customers"; "All Customers";
   "Live (N=97, $1.7M)"; "Live (N=97, $1.7M)";
   "Not Live (N=272, $7.3M)"; "Not Live (N=272, $7.3M)";
   "Not Live-Active (N=261)"; "Not Live-Active (N=261)";
   "Not Live-Active (N=261)"; "Not Live-Active (N=261)"].

Definition segmentation_values : list float :=
  [Finite 9.0; Finite 1.72; Finite 7.28; Finite 1.7; Finite 0.02; Finite 6.98;
   Finite 0.3; Finite 0.02; Finite 2.3; Finite 1.3; Finite 3.3].

(** A node of the hierarchy: label, parent label, value. *)
Definition node : Type := (string * string * float)%type.
Definition node_label (n : node) : string := fst (fst n).
Definition node_parent (n : node) : string := snd (fst n).
Definition node_value (n : node) : float := snd n.

(** The nodes the three parallel lists describe. *)
Definition nodes_of (labels parents : list string) (values : list float) : list node :=
  combine (combine labels parents) values.

Definition children (nodes : list node) (label : string) : list node :=
  filter (fun n => String.eqb (node_parent n) label) nodes.

Definition is_leaf (nodes : list node) (n : node) : bool :=
  match children nodes (node_label n) with [] => true | _ => false end.

Definition total (ns : list node) : float :=
  fold_left F.add (map node_value ns) (Finite 0).

Definition value_of (nodes : list node) (label : string) : option float :=
  option_map node_value (find (fun n => String.eqb (node_label n) label) nodes).

(** The hierarchy [create_segmentation_chart] hands to the treemap. *)
Definition segmentation_nodes : list node :=
  nodes_of segmentation_labels segmentation_parents segmentation_values.

(** Equality of two floats as numbers. *)
Definition float_eqb (x y : float) : bool :=
  match x, y with
  | Finite a, Finite b => Qeq_bool a b
  | PosInf, PosInf | NegInf, NegInf => true
  | _, _ => false
  end.

(** The value of the node equals the sum of the values of its children. *)
Definition sums_its_children (nodes : list node) (n : node) : bool :=
  float_eqb (node_value n) (total (children nodes (node_label n))).

(** ** The chart functions *)

Definition color (name : string) : string :=
  match assoc name COLORS with Some c => c | None => EmptyString end.

Definition scalar_eqb (v : scalar) (s : string) : bool :=
  match v with Str t => String.eqb t s | _ => false end.

(** [colors_map[cat]] *)
Definition scalar_key_get (d : list (string * string)) (k : scalar) : result string :=
  match k with
  | Str s => match assoc s d with Some v => Ok v | None => Raise (KeyError k) end
  | _ => Raise (KeyError k)
  end.

Definition create_kpi_cards : M Figure :=
  let indicators :=
    [(73, "Avg Onboarding", " days");
     (49, "Median Onboarding", " days");
     (29, "% Onboarded <20 Days", "%");
     (11, "% Onboarded 20-40 Days", "%");
     (72, "At Risk Customers", " ($1.3M)")] in
  ret (map (fun ind => Indicator (fst (fst ind)) (snd (fst ind)) (snd ind)) indicators).

Definition create_segmentation_chart : M Figure :=
  let labels := segmentation_labels in
  let parents := segmentation_parents in
  let values := segmentation_values in
  let colors_list :=
    ["white";
     color "blue"; color "gray";
     color "blue"; color "red";
     color "light_blue"; color "red";
     color "gray"; color "gray"; color "orange"; color "green"] in
  ret [Treemap labels parents values colors_list].

(** [erp_data.iloc[::-1].reset_index(drop=True)]: the rows in reverse, so
    that the first ERP of the table is drawn at the top. *)
Definition erp_reversed_of (erp : DataFrame) : DataFrame :=
  reset_index (iloc_reversed erp).

Definition create_erp_chart : M Figure :=
  (erp <~ global erp_data ;;
   let erp_reversed := erp_reversed_of erp in
   erp_labels <~ lift (comprehension
                         (fun row => (e <- row "ERP" ;; n <- row "N" ;;
                                      Ok [Val e; Lit " N="; Val n])%result)
                         (iterrows erp_reversed)) ;;
   average <~ lift (getitem erp_reversed "Average") ;;
   median <~ lift (getitem erp_reversed "Median") ;;
   ret [Bar (Values (col_values average)) (Labels erp_labels) [color "blue"]
            (Values (col_values average)) [];
        Scatter (Values (col_values median)) (Labels erp_labels) (Values [])])%chart.

Definition create_cohort_trend : M Figure :=
  (cohort <~ global cohort_data ;;
   month <~ lift (getitem cohort "Month") ;;
   avg_days <~ lift (getitem cohort "Avg_Days") ;;
   ret [Scatter (Values (col_values month)) (Values (col_values avg_days))
                (Values (col_values avg_days))])%chart.

Definition create_distribution_chart : M Figure :=
  (dist <~ global distribution_data ;;
   bin <~ lift (getitem dist "Bin") ;;
   let colors :=
     map (fun b => if scalar_eqb b "0-20" || scalar_eqb b "20-40" then color "green"
                   else if scalar_eqb b "100+" then color "red" else color "blue")
         (col_values bin) in
   pct <~ lift (getitem dist "Pct") ;;
   ret [Bar (Values (col_values bin)) (Values (col_values pct)) colors
            (Labels (map (fun p => [Val p; Lit "%"]) (col_values pct))) []])%chart.

(** The two statements that compute the percentages, on a frame [df]:
    [total = df['N'].sum()] and
    [df['Pct'] = (df['N'] / total * 100).round(0).astype(int)]. *)
Definition assign_pct (df : DataFrame) : result DataFrame :=
  (n <- getitem df "N" ;;
   let total_customers := series_sum n in
   n <- getitem df "N" ;;
   share <- truediv n total_customers ;;
   pct <- astype_int (round0 (times share 100)) ;;
   Ok (setitem df "Pct" (IntCol pct)))%result.

(** The first part of [create_acv_chart] ("Calculate percentages"): the
    column is assigned into the global table. *)
Definition calculate_percentages : M unit :=
  (acv <~ global acv_onboarding_data ;;
   assigned <~ lift (assign_pct acv) ;;
   update_acv_onboarding_data (fun _ => assigned))%chart.

(** The second part: the bars, read from the global table. *)
Definition acv_bars : M Figure :=
  (acv <~ global acv_onboarding_data ;;
   band <~ lift (getitem acv "ACV_Band") ;;
   pct <~ lift (getitem acv "Pct") ;;
   avg_days <~ lift (getitem acv "Avg_Days") ;;
   n <~ lift (getitem acv "N") ;;
   ret [Bar (Values (col_values band)) (Values (col_values pct)) [color "blue"]
            (Labels (map (fun pd => [Val (fst pd); Lit "%<br>("; Val (snd pd); Lit " days)"])
                         (zip pct avg_days)))
            (zip n avg_days)])%chart.

Definition create_acv_chart : M Figure :=
  (_ <~ calculate_percentages ;; acv_bars)%chart.

Section DefaultKind.
(** The sorting algorithm [sort_values] runs when no [kind] is given. *)
Context (quicksort : sorter).

Definition create_non_live_chart : M Figure :=
  (non_live <~ global non_live_data ;;
   df_sorted <~ lift (sort_values quicksort non_live "ACV" true) ;;
   let colors_map :=
     [("Never Onboarded", color "gray"); ("On Hold", color "gray");
      ("At Risk", color "orange"); ("Low Risk", color "green")] in
   y <~ lift (comprehension
                (fun row => (c <- row "Category" ;; n <- row "N" ;;
                             Ok [Val c; Lit " (N="; Val n; Lit ")"])%result)
                (iterrows df_sorted)) ;;
   acv <~ lift (getitem df_sorted "ACV") ;;
   category <~ lift (getitem df_sorted "Category") ;;
   marker_color <~ lift (comprehension (scalar_key_get colors_map) (col_values category)) ;;
   text <~ lift (comprehension
                   (fun row => (a <- row "ACV" ;; Ok [Lit "$"; Val a; Lit "M"])%result)
                   (iterrows df_sorted)) ;;
   ret [Bar (Values (col_values acv)) (Labels y) marker_color (Labels text) []])%chart.
End DefaultKind.

Definition create_at_risk_breakdown : M Figure :=
  ret [Bar (Values [Int 54]) (Labels [[Lit "At Risk (N=72)"]]) [color "orange"]
           (Labels [[Lit "54 (75%)"]]) [];
       Bar (Values [Int 18]) (Labels [[Lit "At Risk (N=72)"]]) [color "light_orange"]
           (Labels [[Lit "18 (25%)"]]) []].

(** The eight view-building calls of the page. *)
Inductive view : Type :=
| KpiCards | Segmentation | ErpOnboarding | CohortTrend | Distribution
| AcvBands | NonLivePipeline | AtRiskBreakdown.

Definition view_eq_dec (v w : view) : {v = w} + {v <> w}.
Proof. decide equality. Defined.

Definition build (quicksort : sorter) (v : view) : M Figure :=
  match v with
  | KpiCards => create_kpi_cards
  | Segmentation => create_segmentation_chart
  | ErpOnboarding => create_erp_chart
  | CohortTrend => create_cohort_trend
  | Distribution => create_distribution_chart
  | AcvBands => create_acv_chart
  | NonLivePipeline => create_non_live_chart quicksort
  | AtRiskBreakdown => create_at_risk_breakdown
  end.

Fixpoint sequence {A} (ms : list (M A)) : M (list A) :=
  match ms with
  | [] => ret []
  | m :: rest => (a <~ m ;; r <~ sequence rest ;; ret (a :: r))%chart
  end.

(** [app.layout]: the page calls the chart functions once each, in the
    order of the page. *)
Definition layout (quicksort : sorter) : M (list Figure) :=
  sequence (map (build quicksort)
                [KpiCards; Segmentation; ErpOnboarding; CohortTrend; Distribution;
                 AcvBands; NonLivePipeline; AtRiskBreakdown]).

(** ** Observations the properties are stated with *)

(** A computation that assigns into no table. *)
Definition reads_only {A} (m : M A) : Prop := forall ds, snd (m ds) = ds.

(** The data set with [df] bound to [acv_onboarding_data]. *)
Definition with_acv_onboarding_data (ds : Dataset) (df : DataFrame) : Dataset :=
  snd (update_acv_onboarding_data (fun _ => df) ds).


(** [df[df[k] == v]]: the rows whose cell under [k] is the string [v]. *)
Definition loc_eq (df : DataFrame) (k v : string) : result DataFrame :=
  (c <- getitem df k ;;
   let mask := map (fun x => scalar_eqb x v) (col_values c) in
   let positions :=
     map snd (filter fst (combine mask (seq 0 (length mask)))) in
   Ok (take df positions))%result.

(** The integer cells of a column. *)
Definition int_cells (df : DataFrame) (k : string) : result (list Z) :=
  (c <- getitem df k ;;
   match c with
   | IntCol l => Ok l
   | _ => Raise TypeError
   end)%result.

Definition Zsum (l : list Z) : Z := fold_left Z.add l 0.

(** No element is followed by a strictly greater one. *)
Definition descending_by {A} (lt : A -> A -> bool) (l : list A) : Prop :=
  StronglySorted (fun a b => lt a b = false) l.


(** No cell is an infinity or NaN. *)
Definition all_finite (l : list float) : Prop :=
  Forall (fun x => F.isfinite x = true) l.


(** The percentage the chart computes for a count [n] out of [t]. *)
Definition percent (t n : Z) : Z :=
  F.round_half_even (inject_Z n / inject_Z t * inject_Z 100).


(** ** Binning of raw day counts *)

(** Modelled from the spec: the source holds the onboarding distribution
    already binned ([distribution_data]) and has no function from a day
    count to a bin.  The bins are those of the table's [Bin] column, read
    as the half-open intervals of the spec, the last one unbounded. *)
Definition bin_bounds : list (Z * option Z) :=
  [(0, Some 20); (20, Some 40); (40, Some 60); (60, Some 80); (80, Some 100);
   (100, None)].

Definition in_bin (days : Z) (b : Z * option Z) : bool :=
  match snd b with
  | Some high => (fst b <=? days) && (days <? high)
  | None => fst b <=? days
  end.

(** Modelled from the spec: [bucketLabelFor(days)], the label of the bin
    that holds [days]; no bin holds a negative count. *)
Definition bucketLabelFor (days : Z) : option string :=
  option_map fst
    (find (fun lb => in_bin days (snd lb))
          (combine (map Dist.Bin distribution_records) bin_bounds)).

(** ** Observations on the chart functions *)

(** The result of the computation is the same whatever the tables hold. *)
Definition ignores_tables {A} (m : M A) : Prop :=
  forall ds ds', fst (m ds) = fst (m ds').

(** The result of the computation depends on the tables through [table]
    only. *)
Definition reads_table {A T} (table : Dataset -> T) (m : M A) : Prop :=
  forall ds ds', table ds = table ds' -> fst (m ds) = fst (m ds').

(** The tables as [create_acv_chart] leaves them. *)
Definition after_acv_chart (ds : Dataset) : Dataset := snd (create_acv_chart ds).

(** The view-building calls of the page, in the order of the page. *)
Definition page_views : list view :=
  [KpiCards; Segmentation; ErpOnboarding; CohortTrend; Distribution;
   AcvBands; NonLivePipeline; AtRiskBreakdown].

(** The frame [pd.DataFrame([])] builds: no row and no column. *)
Definition empty_frame : DataFrame := mkDataFrame [] [].

(** The label of an ERP bar: [f"{row['ERP']} N={row['N']}"]. *)
Definition erp_label (r : Erp.row) : fstring :=
  [Val (Str (Erp.ERP r)); Lit " N="; Val (Int (Erp.N r))].


(** The colour [create_distribution_chart] gives the bar of a bin. *)
Definition bin_color (bin : string) : string :=
  if String.eqb bin "0-20" || String.eqb bin "20-40" then "#2ca02c"
  else if String.eqb bin "100+" then "#d62728" else "#1f77b4".

(** The categories [create_non_live_chart] has a colour for. *)
Definition known_categories : list string :=
  ["Never Onboarded"; "On Hold"; "At Risk"; "Low Risk"].

(** The colour of the bar of a known category. *)
Definition category_color (category : string) : string :=
  if String.eqb category "At Risk" then "#ff7f0e"
  else if String.eqb category "Low Risk" then "#2ca02c" else "#7f7f7f".

(** The label of a non-live bar: [f"{row['Category']} (N={row['N']})"]. *)
Definition non_live_label (r : NonLive.row) : fstring :=
  [Val (Str (NonLive.Category r)); Lit " (N="; Val (Int (NonLive.N r)); Lit ")"].

(** The text of a non-live bar: [f"${row['ACV']}M"]. *)
Definition non_live_text (r : NonLive.row) : fstring :=
  [Lit "$"; Val (Float (NonLive.ACV r)); Lit "M"].

(** The bar chart of non-live rows given in the order of the bars, with
    the colours of the bars. *)
Definition non_live_bars (rows : list NonLive.row) (colors : list string) : Figure :=
  [Bar (Values (map (fun r => Float (NonLive.ACV r)) rows))
       (Labels (map non_live_label rows))
       colors
       (Labels (map non_live_text rows))
       []].

(** The tables of the module, or no table at all should loading fail. *)
Definition loaded_tables : Dataset :=
  match module_tables with
  | Ok ds => ds
  | Raise _ => mkDataset [] empty_frame empty_frame empty_frame empty_frame
                         empty_frame empty_frame empty_frame
  end.

(** The number an indicator card shows. *)
Definition indicator_value (t : trace) : option Z :=
  match t with Indicator value _ _ => Some value | _ => None end.

(** * Properties *)

(** ** The tables as loaded *)

Lemma module_tables_loads : exists ds, module_tables = Ok ds.
Proof. eexists. reflexivity. Qed.

(** C10.  The at-risk breakdown counts, 54 and 18, add up to 72, which is
    the count of the At Risk row of the segmentation table and the
    [at_risk_customers] entry of the KPI data. *)
Theorem at_risk_counts_agree :
  exists ds at_risk_row,
    module_tables = Ok ds /\
    int_cells (at_risk_breakdown ds) "Count" = Ok [54; 18] /\
    Zsum [54; 18] = 72 /\
    loc_eq (segmentation_data ds) "Category" "At Risk" = Ok at_risk_row /\
    int_cells at_risk_row "N" = Ok [72] /\
    dict_get (kpi_data ds) "at_risk_customers" = Ok (Int 72).
Proof.
  do 2 eexists. repeat split; reflexivity.
Qed.

(** ** The segmentation hierarchy *)

(** X18.  The root and the two live-status nodes of the hierarchy carry the
    sum of their children: 9.0 = 1.72 + 7.28, 1.72 = 1.7 + 0.02 and
    7.28 = 6.98 + 0.3. *)
Lemma upper_nodes_sum_their_children :
  forallb (fun n => sums_its_children segmentation_nodes n)
          (firstn 3 segmentation_nodes) = true.
Proof. reflexivity. Qed.

(** C2.  The hierarchy handed to the treemap breaks the sum rule at one
    node: "Not Live-Active" carries 6.98 while its four children add up to
    6.92; accordingly the leaves add up to 8.94 while the root carries 9.0. *)
Theorem not_live_active_is_not_the_sum_of_its_children :
  value_of segmentation_nodes "Not Live-Active (N=261)" = Some (Finite 6.98) /\
  float_eqb (total (children segmentation_nodes "Not Live-Active (N=261)"))
            (Finite 6.92) = true /\
  forallb (sums_its_children segmentation_nodes)
          (filter (fun n => negb (is_leaf segmentation_nodes n)) segmentation_nodes)
    = false /\
  value_of segmentation_nodes "All Customers" = Some (Finite 9.0) /\
  float_eqb (total (filter (is_leaf segmentation_nodes) segmentation_nodes))
            (Finite 8.94) = true.
Proof. repeat split; reflexivity. Qed.

(** ** The ERP view *)

(** What a ranking by descending [Average] would give; the chart does not
    compute it. *)
Lemma erp_ranked_by_average :
  exists ds ranked,
    module_tables = Ok ds /\
    sort_values insertion_sort (erp_data ds) "Average" false = Ok ranked /\
    getitem ranked "ERP"
    = Ok (ObjCol ["so (Syspro)"; "mb (MYOB)"; "eo"; "xo (Xero)"; "at (Acumatica)"]).
Proof. do 2 eexists. repeat split; reflexivity. Qed.



(** ** Binning *)

(** C9.  [bucketLabelFor] sends 19 to "0-20", 20 to "20-40" and 150 to
    "100+"; each bin but the last is the half-open interval from its lower
    bound to the next, and the last is unbounded. *)
Theorem bucketLabelFor_half_open :
  bucketLabelFor 19 = Some "0-20" /\
  bucketLabelFor 20 = Some "20-40" /\
  bucketLabelFor 150 = Some "100+" /\
  forall days,
    (bucketLabelFor days = Some "0-20" <-> 0 <= days < 20) /\
    (bucketLabelFor days = Some "20-40" <-> 20 <= days < 40) /\
    (bucketLabelFor days = Some "40-60" <-> 40 <= days < 60) /\
    (bucketLabelFor days = Some "60-80" <-> 60 <= days < 80) /\
    (bucketLabelFor days = Some "80-100" <-> 80 <= days < 100) /\
    (bucketLabelFor days = Some "100+" <-> 100 <= days) /\
    (bucketLabelFor days = None <-> days < 0).
Proof.
  split; [reflexivity | split; [reflexivity | split; [reflexivity |]]].
  intro days. unfold bucketLabelFor. cbn -[Z.leb Z.ltb].
  unfold in_bin. cbn -[Z.leb Z.ltb].
  destruct (0 <=? days) eqn:H0; destruct (days <? 20) eqn:H20;
    destruct (20 <=? days) eqn:L20; destruct (days <? 40) eqn:H40;
    destruct (40 <=? days) eqn:L40; destruct (days <? 60) eqn:H60;
    destruct (60 <=? days) eqn:L60; destruct (days <? 80) eqn:H80;
    destruct (80 <=? days) eqn:L80; destruct (days <? 100) eqn:H100;
    destruct (100 <=? days) eqn:L100; cbn;
    try (exfalso; lia);
    repeat split; intros; try discriminate; try lia; try reflexivity.
Qed.

(** ** Columns of a frame *)


Lemma assoc_set_column_other (k k' : string) (c : column) cols :
  k' <> k -> assoc k' (set_column k c cols) = assoc k' cols.
Proof.
  intro Hne. induction cols as [| [k0 c0] rest IH]; simpl.
  - destruct (String.eqb k k') eqn:E; [|reflexivity].
    apply String.eqb_eq in E. congruence.
  - destruct (String.eqb k0 k) eqn:E; simpl.
    + apply String.eqb_eq in E. subst k0.
      destruct (String.eqb k k') eqn:E'; [|reflexivity].
      apply String.eqb_eq in E'. congruence.
    + now rewrite IH.
Qed.

Lemma set_column_twice (k : string) (c c' : column) cols :
  set_column k c' (set_column k c cols) = set_column k c' cols.
Proof.
  induction cols as [| [k0 c0] rest IH]; simpl.
  - now rewrite String.eqb_refl.
  - destruct (String.eqb k0 k) eqn:E; simpl.
    + now rewrite String.eqb_refl.
    + now rewrite E, IH.
Qed.


Lemma getitem_setitem_other df k k' c :
  k' <> k -> getitem (setitem df k c) k' = getitem df k'.
Proof.
  intro Hne. unfold getitem, setitem; simpl.
  now rewrite assoc_set_column_other.
Qed.

Lemma setitem_twice df k c c' : setitem (setitem df k c) k c' = setitem df k c'.
Proof. unfold setitem; simpl. now rewrite set_column_twice. Qed.


(** ** Rounding *)

Lemma Qltb_true (a b : Q) : F.Qltb a b = true <-> (a < b)%Q.
Proof.
  unfold F.Qltb. rewrite negb_true_iff. split; intro H.
  - apply Qnot_le_lt. intro L. apply Qle_bool_iff in L. congruence.
  - destruct (Qle_bool b a) eqn:E; [|reflexivity].
    apply Qle_bool_iff in E. exfalso. apply (Qlt_not_le _ _ H E).
Qed.

Lemma Qltb_false (a b : Q) : F.Qltb a b = false <-> (b <= a)%Q.
Proof. unfold F.Qltb. rewrite negb_false_iff. apply Qle_bool_iff. Qed.




(** ** The percentage column *)



Lemma division_by_zero_is_not_finite (n : Z) :
  F.isfinite (F.round (F.mul (F.div (F.of_Z n) (F.of_Z 0)) (F.of_Z 100))) = false.
Proof.
  unfold F.of_Z, F.div. change (F.Qis0 (inject_Z 0)) with true. cbv iota.
  unfold F.signed_inf.
  destruct (F.Qis0 (inject_Z n)); [reflexivity |].
  destruct (F.Qltb 0 (inject_Z n)); reflexivity.
Qed.

Lemma percent_cells_of_zero (ns : list Z) :
  ns <> [] ->
  astype_int (round0 (times (map (fun x => F.div x (F.of_Z 0)) (map F.of_Z ns)) 100))
  = Raise IntCastingNaNError.
Proof.
  destruct ns as [| n rest]; [congruence | intros _].
  unfold astype_int, round0, times. rewrite !map_map.
  cbn [map forallb]. rewrite division_by_zero_is_not_finite. reflexivity.
Qed.



(** The two percentage statements on a frame whose [N] column holds the
    integers [ns]. *)
Lemma assign_pct_int_counts df ns :
  getitem df "N" = Ok (IntCol ns) ->
  assign_pct df =
  (pct <- astype_int (round0 (times (map (fun x => F.div x (F.of_Z (Zsum ns)))
                                        (map F.of_Z ns)) 100)) ;;
   Ok (setitem df "Pct" (IntCol pct)))%result.
Proof. intro H. unfold assign_pct. rewrite H. reflexivity. Qed.






(** ** Building a frame *)

Lemma comprehension_map {A B C} (body : B -> result C) (h : A -> B) (l : list A) :
  comprehension body (map h l) = comprehension (fun a => body (h a)) l.
Proof. induction l as [| a l IH]; simpl; [reflexivity | now rewrite IH]. Qed.

Lemma comprehension_ok {A B} (body : A -> result B) (g : A -> B) (l : list A) :
  (forall a, In a l -> body a = Ok (g a)) ->
  comprehension body l = Ok (map g l).
Proof.
  induction l as [| a l IH]; intro H; simpl; [reflexivity |].
  rewrite (H a) by now left. simpl.
  rewrite IH by (intros; apply H; now right). reflexivity.
Qed.

Lemma comprehension_ext {A B} (f g : A -> result B) (l : list A) :
  (forall a, In a l -> f a = g a) -> comprehension f l = comprehension g l.
Proof.
  induction l as [| a l IH]; intro H; simpl; [reflexivity |].
  rewrite (H a) by now left.
  rewrite IH by (intros; apply H; now right). reflexivity.
Qed.

Lemma map_nth_error_seq {A} (l : list A) :
  map (nth_error l) (seq 0 (length l)) = map Some l.
Proof.
  induction l as [| a l IH]; simpl; [reflexivity |].
  f_equal. rewrite <- seq_shift, map_map. exact IH.
Qed.

(** Iterating over the rows of a frame, reading cells that are the image
    of a list of records, gives the records back in order. *)
Lemma iterate_records {R B} (records : list R) (cell : R -> B) (e : exn)
      (read : nat -> result B) :
  (forall i, read i = match nth_error records i with
                      | Some r => Ok (cell r)
                      | None => Raise e
                      end) ->
  comprehension read (seq 0 (length records)) = Ok (map cell records).
Proof.
  intro H.
  rewrite (comprehension_ext read
             (fun i => match nth_error records i with
                       | Some r => Ok (cell r)
                       | None => Raise e
                       end)) by (intros; apply H).
  rewrite <- (comprehension_map
                (fun o => match o with
                          | Some r => Ok (cell r)
                          | None => Raise e
                          end) (nth_error records)).
  rewrite map_nth_error_seq, comprehension_map.
  now apply comprehension_ok.
Qed.

(** C6, as stated, fails: a segmentation table with the same category
    twice, and a negative count, is built without an error. *)
Lemma duplicate_category_is_accepted :
  exists df,
    pd_DataFrame [Seg.Build_row "Not Live" "Active" "At Risk" 72 (Finite 1.3);
                  Seg.Build_row "Not Live" "Active" "At Risk" (-1) (Finite 1.3)]
    = Ok df /\
    getitem df "Category" = Ok (ObjCol ["At Risk"; "At Risk"]) /\
    int_cells df "N" = Ok [72; -1].
Proof. eexists. repeat split; reflexivity. Qed.

(** C6, amended.  Building the segmentation table validates nothing: for
    every list of records, duplicates and negative counts included, the
    call returns a frame, and the rows of that frame hold the records'
    categories and counts, in the order given. *)
Theorem segmentation_table_is_built_unchecked (records : list Seg.row) :
  exists df,
    pd_DataFrame records = Ok df /\
    length (index df) = length records /\
    comprehension (fun row => (c <- row "Category" ;; n <- row "N" ;; Ok (c, n))%result)
                  (iterrows df)
    = Ok (map (fun r => (Str (Seg.Category r), Int (Seg.N r))) records).
Proof.
  destruct records as [| r rest].
  - eexists. repeat split; reflexivity.
  - eexists. split; [reflexivity |]. set (rows := r :: rest).
    split; [apply length_seq |].
    unfold iterrows. cbn [index]. rewrite length_seq, comprehension_map.
    apply (iterate_records rows _ (KeyError (Str "Category"))). intro i.
    unfold row_at, getitem. cbn [columns to_columns seg_records assoc String.eqb
                                 Ascii.eqb Bool.eqb rbind col_values].
    rewrite !nth_error_map.
    destruct (nth_error rows i); reflexivity.
Qed.

(** ** What the chart functions do to the tables *)

Lemma reads_only_ret {A} (a : A) : reads_only (ret a).
Proof. intro ds. reflexivity. Qed.

Lemma reads_only_lift {A} (r : result A) : reads_only (lift r).
Proof. intro ds. reflexivity. Qed.

Lemma reads_only_global {A} (table : Dataset -> A) : reads_only (global table).
Proof. intro ds. reflexivity. Qed.

Lemma reads_only_bind {A B} (m : M A) (k : A -> M B) :
  reads_only m -> (forall a, reads_only (k a)) -> reads_only (bind m k).
Proof.
  intros Hm Hk ds. unfold bind. specialize (Hm ds).
  destruct (m ds) as [[a | e] ds1]; simpl in *; subst ds1; [apply Hk | reflexivity].
Qed.

Ltac reads_only_tac :=
  repeat first
    [ apply reads_only_bind; [| intro]
    | apply reads_only_ret
    | apply reads_only_lift
    | apply reads_only_global ].

Lemma create_kpi_cards_reads_only : reads_only create_kpi_cards.
Proof. unfold create_kpi_cards. reads_only_tac. Qed.

Lemma create_segmentation_chart_reads_only : reads_only create_segmentation_chart.
Proof. unfold create_segmentation_chart. reads_only_tac. Qed.

Lemma create_erp_chart_reads_only : reads_only create_erp_chart.
Proof. unfold create_erp_chart. reads_only_tac. Qed.

Lemma create_cohort_trend_reads_only : reads_only create_cohort_trend.
Proof. unfold create_cohort_trend. reads_only_tac. Qed.

Lemma create_distribution_chart_reads_only : reads_only create_distribution_chart.
Proof. unfold create_distribution_chart. reads_only_tac. Qed.

Lemma create_non_live_chart_reads_only quicksort :
  reads_only (create_non_live_chart quicksort).
Proof. unfold create_non_live_chart. reads_only_tac. Qed.

Lemma create_at_risk_breakdown_reads_only : reads_only create_at_risk_breakdown.
Proof. unfold create_at_risk_breakdown. reads_only_tac. Qed.

Lemma acv_bars_reads_only : reads_only acv_bars.
Proof. unfold acv_bars. reads_only_tac. Qed.

Lemma calculate_percentages_run (ds : Dataset) :
  calculate_percentages ds =
  match assign_pct (acv_onboarding_data ds) with
  | Ok assigned => (Ok tt, with_acv_onboarding_data ds assigned)
  | Raise e => (Raise e, ds)
  end.
Proof.
  unfold calculate_percentages, bind, global, lift. 
  destruct (assign_pct (acv_onboarding_data ds)); reflexivity.
Qed.

Lemma assign_pct_shape df assigned :
  assign_pct df = Ok assigned ->
  exists pct, assigned = setitem df "Pct" (IntCol pct).
Proof.
  unfold assign_pct. destruct (getitem df "N") as [n |]; simpl; [| discriminate].
  destruct (truediv n (series_sum n)) as [share |]; simpl; [| discriminate].
  destruct (astype_int (round0 (times share 100))) as [pct |]; simpl; [| discriminate].
  intro H. injection H as <-. now exists pct.
Qed.

(** Run on its own result, the assignment changes nothing more. *)
Lemma assign_pct_again df assigned :
  assign_pct df = Ok assigned -> assign_pct assigned = Ok assigned.
Proof.
  intro H. destruct (assign_pct_shape _ _ H) as [pct ->].
  revert H. unfold assign_pct.
  rewrite (getitem_setitem_other df "Pct" "N") by discriminate.
  destruct (getitem df "N") as [n |]; simpl; [| discriminate].
  destruct (truediv n (series_sum n)) as [share |]; simpl; [| discriminate].
  destruct (astype_int (round0 (times share 100))) as [pct' |]; simpl; [| discriminate].
  intro H. rewrite setitem_twice. exact H.
Qed.

Lemma build_reads_only quicksort (v : view) :
  v <> AcvBands -> reads_only (build quicksort v).
Proof.
  destruct v; intro H; simpl;
    auto using create_kpi_cards_reads_only, create_segmentation_chart_reads_only,
      create_erp_chart_reads_only, create_cohort_trend_reads_only,
      create_distribution_chart_reads_only, create_non_live_chart_reads_only,
      create_at_risk_breakdown_reads_only.
  congruence.
Qed.

Lemma create_acv_chart_run (ds : Dataset) :
  create_acv_chart ds =
  match assign_pct (acv_onboarding_data ds) with
  | Ok assigned =>
      (fst (acv_bars (with_acv_onboarding_data ds assigned)),
       with_acv_onboarding_data ds assigned)
  | Raise e => (Raise e, ds)
  end.
Proof.
  unfold create_acv_chart, bind. rewrite calculate_percentages_run.
  destruct (assign_pct (acv_onboarding_data ds)) as [assigned | e]; [| reflexivity].
  rewrite (surjective_pairing (acv_bars _)), acv_bars_reads_only.
  destruct (fst (acv_bars (with_acv_onboarding_data ds assigned))); reflexivity.
Qed.

(** C1, as stated, fails: the call that builds the ACV-band view changes
    the ACV-band table, which gains the column [Pct]. *)
Lemma create_acv_chart_changes_its_table :
  exists ds figure ds',
    module_tables = Ok ds /\
    create_acv_chart ds = (Ok figure, ds') /\
    getitem (acv_onboarding_data ds) "Pct" = Raise (KeyError (Str "Pct")) /\
    getitem (acv_onboarding_data ds') "Pct" = Ok (IntCol [12; 22; 46; 15; 5]) /\
    acv_onboarding_data ds' <> acv_onboarding_data ds.
Proof. do 3 eexists. repeat split; try reflexivity. discriminate. Qed.

(** C1, amended.  A view-building call leaves every table unchanged except
    that the call for the ACV-band view assigns the column [Pct] of the
    ACV-band table (the index and the other columns stay); a repeated call
    returns what the first returned and leaves the tables as the first
    left them. *)
Theorem views_change_only_the_pct_column
        (quicksort : sorter) (v : view) (ds : Dataset) :
  let ds' := snd (build quicksort v ds) in
  kpi_data ds' = kpi_data ds /\
  segmentation_data ds' = segmentation_data ds /\
  erp_data ds' = erp_data ds /\
  cohort_data ds' = cohort_data ds /\
  distribution_data ds' = distribution_data ds /\
  non_live_data ds' = non_live_data ds /\
  at_risk_breakdown ds' = at_risk_breakdown ds /\
  (acv_onboarding_data ds' = acv_onboarding_data ds \/
   v = AcvBands /\
   exists pct, acv_onboarding_data ds'
               = setitem (acv_onboarding_data ds) "Pct" (IntCol pct)) /\
  build quicksort v ds' = build quicksort v ds.
Proof.
  destruct (view_eq_dec v AcvBands) as [-> | Hv].
  - cbn [build]. rewrite create_acv_chart_run.
    destruct (assign_pct (acv_onboarding_data ds)) as [assigned | e] eqn:Ha.
    + cbn [snd]. repeat split; try reflexivity.
      * right. split; [reflexivity |]. apply (assign_pct_shape _ _ Ha).
      * rewrite create_acv_chart_run.
        change (acv_onboarding_data (with_acv_onboarding_data ds assigned))
          with assigned.
        rewrite (assign_pct_again _ _ Ha). reflexivity.
    + cbn [snd]. repeat split; try reflexivity.
      * now left.
      * rewrite create_acv_chart_run, Ha. reflexivity.
  - cbv zeta. rewrite (build_reads_only quicksort v Hv ds).
    repeat split; try reflexivity. now left.
Qed.

(** ** Percentage columns *)

(** C8.  Once the page is laid out, every table that carries a percentage
    column has percentages adding up to within 1 of 100: the distribution
    table (29, 11, 16, 8, 6, 29: 99) and the ACV-band table with its
    computed column (12, 22, 46, 15, 5: 100). *)
Theorem percentage_columns_add_up_to_100 :
  exists ds figures ds',
    module_tables = Ok ds /\
    layout insertion_sort ds = (Ok figures, ds') /\
    int_cells (distribution_data ds') "Pct" = Ok [29; 11; 16; 8; 6; 29] /\
    int_cells (acv_onboarding_data ds') "Pct" = Ok [12; 22; 46; 15; 5] /\
    Forall (fun df =>
              match int_cells df "Pct" with
              | Ok pct => Z.abs (Zsum pct - 100) <= 1
              | Raise _ => getitem df "Pct" = Raise (KeyError (Str "Pct"))
              end)
           (tables ds').
Proof.
  do 3 eexists. split; [reflexivity |]. split; [reflexivity |].
  split; [reflexivity |]. split; [reflexivity |].
  repeat constructor; vm_compute; congruence.
Qed.

(** X17.  The percentages stored in the distribution table are those the
    percentage computation gives on its counts: the counts add up to 95 and
    each [Pct] is the rounded share of its [Count]. *)
Theorem distribution_pct_is_the_share_of_count :
  exists ds counts,
    module_tables = Ok ds /\
    int_cells (distribution_data ds) "Count" = Ok counts /\
    Zsum counts = 95 /\
    int_cells (distribution_data ds) "Pct" = Ok (map (percent 95) counts).
Proof. do 2 eexists. repeat split; reflexivity. Qed.

(** The two percentage KPIs are the percentages of the first two bins
    of the distribution table: 29 for "0-20" and 11 for "20-40". *)
Theorem kpi_percentages_are_the_first_two_bins :
  exists ds under_20 from_20_to_40,
    module_tables = Ok ds /\
    dict_get (kpi_data ds) "pct_under_20" = Ok (Int 29) /\
    loc_eq (distribution_data ds) "Bin" "0-20" = Ok under_20 /\
    int_cells under_20 "Pct" = Ok [29] /\
    dict_get (kpi_data ds) "pct_20_to_40" = Ok (Int 11) /\
    loc_eq (distribution_data ds) "Bin" "20-40" = Ok from_20_to_40 /\
    int_cells from_20_to_40 "Pct" = Ok [11].
Proof. do 3 eexists. repeat split; reflexivity. Qed.

(** ** Sorting algorithms and the library's promise *)

Lemma StronglySorted_app {A} (R : A -> A -> Prop) (l1 l2 : list A) :
  StronglySorted R l1 -> StronglySorted R l2 ->
  (forall a b, In a l1 -> In b l2 -> R a b) ->
  StronglySorted R (l1 ++ l2).
Proof.
  intros H1 H2 H. induction H1 as [| a l1 Hs IH Hf]; simpl; [exact H2 |].
  constructor.
  - apply IH. intros; apply H; [now right | assumption].
  - apply Forall_app. split; [exact Hf |].
    apply Forall_forall. intros b Hb. apply H; [now left | assumption].
Qed.

Lemma StronglySorted_rev {A} (R : A -> A -> Prop) (l : list A) :
  StronglySorted R l -> StronglySorted (fun a b => R b a) (rev l).
Proof.
  induction 1 as [| a l Hs IH Hf]; simpl; [constructor |].
  apply StronglySorted_app; [exact IH | repeat constructor |].
  intros x y Hx Hy. destruct Hy as [<- | []].
  apply in_rev in Hx. rewrite Forall_forall in Hf. now apply Hf.
Qed.

Lemma StronglySorted_map {A B} (f : A -> B) (R : B -> B -> Prop) (l : list A) :
  StronglySorted (fun a b => R (f a) (f b)) l -> StronglySorted R (map f l).
Proof.
  induction 1 as [| a l Hs IH Hf]; simpl; constructor; [exact IH |].
  apply Forall_map. exact Hf.
Qed.

Section Insertion.
Context {A : Type} (lt cmp : A -> A -> bool).

Lemma moves_by_incl (l l' : list A) : incl l' l -> moves_by lt cmp l -> moves_by lt cmp l'.
Proof.
  intros Hi [H1 [H2 H3]]. repeat split; intros.
  - apply H1; auto.
  - apply H2; auto.
  - apply (H3 a b c); auto.
Qed.

Lemma insert_back_permutation (x : A) (prefix : list A) :
  Permutation (insert_back cmp x prefix) (x :: prefix).
Proof.
  induction prefix as [| y rest IH]; simpl; [reflexivity |].
  destruct (cmp x y); [| reflexivity].
  rewrite IH. apply perm_swap.
Qed.

Lemma fold_insert_permutation (l acc : list A) :
  Permutation (fold_left (fun prefix x => insert_back cmp x prefix) l acc) (l ++ acc).
Proof.
  revert acc. induction l as [| x l IH]; intro acc; simpl; [reflexivity |].
  rewrite IH, insert_back_permutation. symmetry. apply Permutation_middle.
Qed.

Lemma insert_back_descending (x : A) (prefix : list A) :
  moves_by lt cmp (x :: prefix) ->
  descending_by lt prefix -> descending_by lt (insert_back cmp x prefix).
Proof.
  unfold descending_by.
  induction prefix as [| y rest IH]; intros Hm Hs; simpl.
  - repeat constructor.
  - apply StronglySorted_inv in Hs. destruct Hs as [Hrest Hy].
    pose proof Hm as [H1 [H2 H3]].
    destruct (cmp x y) eqn:E.
    + constructor.
      * apply IH; [| exact Hrest].
        apply (moves_by_incl (x :: y :: rest)); [| exact Hm].
        intros z [<- | Hz]; [now left | now right; right].
      * apply (Permutation_Forall (Permutation_sym (insert_back_permutation x rest))).
        constructor; [| exact Hy].
        apply H1; [now left | now right; left | exact E].
    + constructor; [now constructor |].
      constructor.
      * apply H2; [now left | now right; left | exact E].
      * rewrite Forall_forall in *. intros z Hz.
        apply (H3 x y z); [now left | now right; left | now right; right | |].
        -- apply H2; [now left | now right; left | exact E].
        -- now apply Hy.
Qed.

Lemma fold_insert_descending (l acc : list A) :
  moves_by lt cmp (l ++ acc) ->
  descending_by lt acc ->
  descending_by lt (fold_left (fun prefix x => insert_back cmp x prefix) l acc).
Proof.
  revert acc. induction l as [| x l IH]; intros acc Hm Hs; simpl; [exact Hs |].
  apply IH.
  - apply (moves_by_incl ((x :: l) ++ acc)); [| exact Hm].
    intros z Hz. apply in_app_or in Hz. destruct Hz as [Hz | Hz].
    + apply in_or_app. left. now right.
    + apply (Permutation_in _ (insert_back_permutation x acc)) in Hz.
      destruct Hz as [<- | Hz]; [now left |].
      apply in_or_app. now right.
  - apply insert_back_descending; [| exact Hs].
    apply (moves_by_incl ((x :: l) ++ acc)); [| exact Hm].
    intros z [<- | Hz]; [now left | apply in_or_app; now right].
Qed.

Lemma insertion_permutation (l : list A) :
  Permutation (insertion_sort A cmp l) l.
Proof.
  unfold insertion_sort. rewrite <- Permutation_rev, fold_insert_permutation.
  now rewrite app_nil_r.
Qed.

Lemma insertion_ascending (l : list A) :
  moves_by lt cmp l -> ascending_by lt (insertion_sort A cmp l).
Proof.
  intro Hm. unfold insertion_sort, ascending_by.
  apply (StronglySorted_rev (fun a b => lt a b = false)).
  apply fold_insert_descending; [now rewrite app_nil_r | constructor].
Qed.
End Insertion.

(** Insertion sort keeps the library's promise. *)
Lemma insertion_sort_contract : sorter_contract insertion_sort.
Proof.
  split.
  - intros A lt l. apply insertion_permutation.
  - intros A lt l [Hasym Hneg]. apply insertion_ascending.
    repeat split; auto.
Qed.

(** So does the variant that moves past equal keys. *)
Lemma insertion_sort_past_equal_contract : sorter_contract insertion_sort_past_equal.
Proof.
  split.
  - intros A lt l. apply insertion_permutation.
  - intros A lt l [Hasym Hneg]. unfold insertion_sort_past_equal.
    apply insertion_ascending. repeat split; auto.
    + intros x y _ _ H. now apply negb_true_iff in H.
    + intros x y Hx Hy H. apply negb_false_iff in H. now apply Hasym.
Qed.

(** The promise does not fix the order of equal keys: on two rows with the
    same ACV the two algorithms above, both within the promise, disagree,
    and the second one swaps the rows. *)
Lemma equal_keys_may_be_swapped :
  exists df first second,
    pd_DataFrame [NonLive.Build_row "On Hold" (Finite 2.3) 90;
                  NonLive.Build_row "At Risk" (Finite 2.3) 72] = Ok df /\
    sort_values insertion_sort df "ACV" true = Ok first /\
    getitem first "Category" = Ok (ObjCol ["On Hold"; "At Risk"]) /\
    sort_values insertion_sort_past_equal df "ACV" true = Ok second /\
    getitem second "Category" = Ok (ObjCol ["At Risk"; "On Hold"]).
Proof. do 3 eexists. repeat split; reflexivity. Qed.

(** ** Sorting a frame *)

Lemma filter_all {A} (f : A -> bool) (l : list A) :
  (forall x, In x l -> f x = true) -> filter f l = l.
Proof.
  induction l as [| a l IH]; intro H; simpl; [reflexivity |].
  rewrite (H a) by now left. f_equal. apply IH. intros; apply H; now right.
Qed.

Lemma filter_none {A} (f : A -> bool) (l : list A) :
  (forall x, In x l -> f x = false) -> filter f l = [].
Proof.
  induction l as [| a l IH]; intro H; simpl; [reflexivity |].
  rewrite (H a) by now left. apply IH. intros; apply H; now right.
Qed.

Lemma map_fst_combine {A B} (l : list A) (l' : list B) :
  length l = length l' -> map fst (combine l l') = l.
Proof.
  revert l'. induction l as [| a l IH]; intros [| b l'] H; simpl in *;
    try discriminate; [reflexivity |]. f_equal. apply IH. lia.
Qed.

Lemma map_snd_combine {A B} (l : list A) (l' : list B) :
  length l = length l' -> map snd (combine l l') = l'.
Proof.
  revert l'. induction l as [| a l IH]; intros [| b l'] H; simpl in *;
    try discriminate; [reflexivity |]. f_equal. apply IH. lia.
Qed.

Lemma in_combine_seq {A} (l : list A) (s : nat) (a : A) (i : nat) :
  In (a, i) (combine l (seq s (length l))) -> nth_error l (i - s) = Some a /\ (s <= i)%nat.
Proof.
  revert s. induction l as [| b l IH]; intros s H; simpl in *; [contradiction |].
  destruct H as [H | H].
  - injection H as -> ->. rewrite Nat.sub_diag. split; [reflexivity | lia].
  - apply IH in H. destruct H as [H Hs].
    replace (i - s)%nat with (S (i - S s)) by lia. split; [exact H | lia].
Qed.

(** Taking the rows at the positions of sorted cells gives their keys. *)
Lemma take_list_cons {A} (i : nat) (p : list nat) (l : list A) :
  take_list (i :: p) A l
  = (match nth_error l i with Some x => [x] | None => [] end ++ take_list p A l)%list.
Proof. reflexivity. Qed.

Lemma take_list_cells {A} (l : list A) (cells : list (A * nat)) :
  incl cells (combine l (seq 0 (length l))) ->
  take_list (map snd cells) A l = map fst cells.
Proof.
  induction cells as [| [a i] cells IH]; intro H; [reflexivity |].
  assert (Hin : In (a, i) (combine l (seq 0 (length l)))) by (apply H; now left).
  apply in_combine_seq in Hin. rewrite Nat.sub_0_r in Hin. destruct Hin as [Hin _].
  change (map snd ((a, i) :: cells)) with (i :: map snd cells).
  rewrite take_list_cons, Hin. simpl. f_equal. apply IH.
  intros x Hx. apply H. now right.
Qed.

Lemma take_list_length {A} (p : list nat) (l : list A) :
  Forall (fun i => (i < length l)%nat) p -> length (take_list p A l) = length p.
Proof.
  induction 1 as [| i p Hi Hp IH]; [reflexivity |].
  rewrite take_list_cons. destruct (nth_error l i) eqn:E.
  - simpl. now rewrite IH.
  - apply nth_error_None in E. lia.
Qed.

Lemma take_list_all {A} (l : list A) : take_list (seq 0 (length l)) A l = l.
Proof.
  unfold take_list. rewrite flat_map_concat_map.
  rewrite <- (map_map (nth_error l) (fun o => match o with Some x => [x] | None => [] end)).
  rewrite map_nth_error_seq, map_map. 
  induction l as [| a l IH]; simpl; [reflexivity | now rewrite IH].
Qed.

(** The order of finite floats. *)

Lemma ltb_asym_finite a b :
  F.isfinite a = true -> F.isfinite b = true -> F.ltb a b = true -> F.ltb b a = false.
Proof.
  destruct a as [p | | |], b as [q | | |]; simpl; try discriminate.
  intros _ _ H. apply Qltb_true in H. apply Qltb_false. lra.
Qed.

Lemma ltb_negtrans_finite a b c :
  F.isfinite a = true -> F.isfinite b = true -> F.isfinite c = true ->
  F.ltb a b = false -> F.ltb b c = false -> F.ltb a c = false.
Proof.
  destruct a as [p | | |], b as [q | | |], c as [r | | |]; simpl; try discriminate.
  intros _ _ _ H1 H2. apply Qltb_false in H1, H2. apply Qltb_false. lra.
Qed.

Lemma cells_strict_weak (keys : list float) (l : list nat) :
  all_finite keys -> strict_weak_on (lt_key F.ltb) (combine keys l).
Proof.
  intro Hf. unfold all_finite in Hf. rewrite Forall_forall in Hf.
  assert (Hk : forall c, In c (combine keys l) -> F.isfinite (fst c) = true).
  { intros [k i] Hc. apply in_combine_l in Hc. now apply Hf. }
  split.
  - intros a b Ha Hb. apply ltb_asym_finite; auto.
  - intros a b c Ha Hb Hc. apply ltb_negtrans_finite; auto.
Qed.



Lemma nargsort_finite (kind : sorter) (keys : list float) :
  all_finite keys ->
  nargsort F.ltb F.isnan kind keys true
  = map snd (kind _ (lt_key F.ltb) (combine keys (seq 0 (length keys)))).
Proof.
  intro Hf. unfold all_finite in Hf. rewrite Forall_forall in Hf.
  assert (Hk : forall c, In c (combine keys (seq 0 (length keys))) ->
                         F.isnan (fst c) = false).
  { intros [k i] Hc. apply in_combine_l in Hc. apply Hf in Hc.
    now destruct k. }
  unfold nargsort. rewrite filter_all, filter_none; [apply app_nil_r | exact Hk |].
  intros c Hc. now rewrite Hk.
Qed.





Lemma permutation_range (p : list nat) (n : nat) :
  Permutation p (seq 0 n) -> Forall (fun i => (i < n)%nat) p.
Proof.
  intro H. apply Forall_forall. intros i Hi.
  apply (Permutation_in _ H), in_seq in Hi. lia.
Qed.


Section Promise.
Context (kind : sorter) (Hkind : sorter_contract kind).

Lemma argsort_of_finite (keys : list float) :
  all_finite keys ->
  let p := column_argsort kind (FloatCol keys) true in
  Permutation p (seq 0 (length keys)) /\
  Permutation (take_list p float keys) keys /\
  ascending_by F.ltb (take_list p float keys).
Proof.
  intros Hf p. subst p. cbn [column_argsort]. rewrite (nargsort_finite _ _ Hf).
  set (cells := combine keys (seq 0 (length keys))).
  pose proof (sorted_permutation kind Hkind _ (lt_key F.ltb) cells) as Hp.
  pose proof (sorted_ascending kind Hkind _ (lt_key F.ltb) cells
                (cells_strict_weak keys _ Hf)) as Ha.
  set (sorted := kind _ (lt_key F.ltb) cells) in *.
  assert (Hkeys : take_list (map snd sorted) float keys = map fst sorted).
  { apply take_list_cells. intros c Hc. apply (Permutation_in _ Hp Hc). }
  rewrite Hkeys. repeat split.
  - rewrite (Permutation_map snd Hp). unfold cells.
    rewrite map_snd_combine; [reflexivity | now rewrite length_seq].
  - rewrite (Permutation_map fst Hp). unfold cells.
    rewrite map_fst_combine; [reflexivity | now rewrite length_seq].
  - apply StronglySorted_map. exact Ha.
Qed.

End Promise.




(** ** How the calls compose *)

Lemma ignores_tables_ret {A} (a : A) : ignores_tables (ret a).
Proof. intros ds ds'. reflexivity. Qed.

Lemma ignores_tables_lift {A} (r : result A) : ignores_tables (lift r).
Proof. intros ds ds'. reflexivity. Qed.

Lemma ignores_tables_bind {A B} (m : M A) (k : A -> M B) :
  ignores_tables m -> (forall a, ignores_tables (k a)) -> ignores_tables (bind m k).
Proof.
  intros Hm Hk ds ds'. unfold bind. specialize (Hm ds ds').
  destruct (m ds) as [[a | e] s], (m ds') as [[a' | e'] s']; cbn [fst] in *;
    try discriminate; try (injection Hm as ->).
  - apply Hk.
  - reflexivity.
Qed.

Lemma reads_table_bind {B T} (table : Dataset -> T) (k : T -> M B) :
  (forall t, ignores_tables (k t)) -> reads_table table (bind (global table) k).
Proof.
  intros Hk ds ds' H. unfold bind, global. rewrite H. apply Hk.
Qed.

Ltac ignores_tables_tac :=
  repeat first
    [ apply ignores_tables_bind; [| intro]
    | apply ignores_tables_ret
    | apply ignores_tables_lift ].

Lemma create_kpi_cards_ignores_tables : ignores_tables create_kpi_cards.
Proof. unfold create_kpi_cards. ignores_tables_tac. Qed.

Lemma create_segmentation_chart_ignores_tables :
  ignores_tables create_segmentation_chart.
Proof. unfold create_segmentation_chart. ignores_tables_tac. Qed.

Lemma create_at_risk_breakdown_ignores_tables :
  ignores_tables create_at_risk_breakdown.
Proof. unfold create_at_risk_breakdown. ignores_tables_tac. Qed.

Lemma create_erp_chart_reads_erp_data : reads_table erp_data create_erp_chart.
Proof. apply reads_table_bind. intro. ignores_tables_tac. Qed.

Lemma create_cohort_trend_reads_cohort_data : reads_table cohort_data create_cohort_trend.
Proof. apply reads_table_bind. intro. ignores_tables_tac. Qed.

Lemma create_distribution_chart_reads_distribution_data :
  reads_table distribution_data create_distribution_chart.
Proof. apply reads_table_bind. intro. ignores_tables_tac. Qed.

Lemma create_non_live_chart_reads_non_live_data kind :
  reads_table non_live_data (create_non_live_chart kind).
Proof. apply reads_table_bind. intro. ignores_tables_tac. Qed.

Lemma after_acv_chart_cases (ds : Dataset) :
  after_acv_chart ds = ds \/
  exists assigned,
    assign_pct (acv_onboarding_data ds) = Ok assigned /\
    after_acv_chart ds = with_acv_onboarding_data ds assigned.
Proof.
  unfold after_acv_chart. rewrite create_acv_chart_run.
  destruct (assign_pct (acv_onboarding_data ds)) as [assigned | e] eqn:E.
  - right. exists assigned. split; reflexivity.
  - now left.
Qed.

Lemma create_acv_chart_again (ds : Dataset) :
  create_acv_chart (after_acv_chart ds) = create_acv_chart ds.
Proof.
  unfold after_acv_chart. rewrite (create_acv_chart_run ds).
  destruct (assign_pct (acv_onboarding_data ds)) as [assigned | e] eqn:E; cbn [snd].
  - rewrite create_acv_chart_run.
    change (acv_onboarding_data (with_acv_onboarding_data ds assigned)) with assigned.
    rewrite (assign_pct_again _ _ E). reflexivity.
  - rewrite create_acv_chart_run, E. reflexivity.
Qed.

(** The result of a call does not change when [create_acv_chart] has run
    before it. *)
Lemma build_after_acv_chart kind (v : view) (ds : Dataset) :
  fst (build kind v (after_acv_chart ds)) = fst (build kind v ds).
Proof.
  destruct (after_acv_chart_cases ds) as [-> | [assigned [_ E]]]; [reflexivity |].
  destruct v; cbn [build].
  - apply create_kpi_cards_ignores_tables.
  - apply create_segmentation_chart_ignores_tables.
  - apply create_erp_chart_reads_erp_data. now rewrite E.
  - apply create_cohort_trend_reads_cohort_data. now rewrite E.
  - apply create_distribution_chart_reads_distribution_data. now rewrite E.
  - now rewrite create_acv_chart_again.
  - apply create_non_live_chart_reads_non_live_data. now rewrite E.
  - apply create_at_risk_breakdown_ignores_tables.
Qed.

Lemma build_state kind (v : view) (ds : Dataset) :
  snd (build kind v ds) = ds \/ snd (build kind v ds) = after_acv_chart ds.
Proof.
  destruct (view_eq_dec v AcvBands) as [-> | Hv].
  - now right.
  - left. now apply build_reads_only.
Qed.

Lemma after_acv_chart_twice (ds : Dataset) :
  after_acv_chart (after_acv_chart ds) = after_acv_chart ds.
Proof.
  unfold after_acv_chart at 1. now rewrite create_acv_chart_again.
Qed.

Lemma sequence_cons {A} (m : M A) (ms : list (M A)) (s : Dataset) :
  sequence (m :: ms) s =
  match m s with
  | (Ok a, s1) =>
      match sequence ms s1 with
      | (Ok r, s2) => (Ok (a :: r), s2)
      | (Raise e, s2) => (Raise e, s2)
      end
  | (Raise e, s1) => (Raise e, s1)
  end.
Proof.
  cbn [sequence]. unfold bind. destruct (m s) as [[a | e] s1]; [| reflexivity].
  destruct (sequence ms s1) as [[r | e] s2]; reflexivity.
Qed.

Lemma sequence_from kind (vs : list view) (ds s : Dataset) :
  s = ds \/ s = after_acv_chart ds ->
  fst (sequence (map (build kind) vs) s)
  = comprehension (fun v => fst (build kind v ds)) vs /\
  (snd (sequence (map (build kind) vs) s) = ds \/
   snd (sequence (map (build kind) vs) s) = after_acv_chart ds).
Proof.
  revert s. induction vs as [| v vs IH]; intros s Hs.
  - split; [reflexivity | exact Hs].
  - assert (Hr : fst (build kind v s) = fst (build kind v ds)).
    { destruct Hs as [-> | ->]; [reflexivity | apply build_after_acv_chart]. }
    assert (Hn : snd (build kind v s) = ds \/ snd (build kind v s) = after_acv_chart ds).
    { destruct (build_state kind v s) as [E | E]; rewrite E.
      - exact Hs.
      - right. destruct Hs as [-> | ->]; [reflexivity | apply after_acv_chart_twice]. }
    cbn [map comprehension]. rewrite sequence_cons, <- Hr.
    destruct (build kind v s) as [[fig | e] s1]; cbn [fst snd rbind] in *.
    + destruct (IH s1 Hn) as [IH1 IH2]. rewrite <- IH1.
      destruct (sequence (map (build kind) vs) s1) as [[figs | e] s2];
        cbn [fst snd rbind] in *; split; try reflexivity; exact IH2.
    + split; [reflexivity | exact Hn].
Qed.

(** X1.  View-building calls do not interfere: for every list of calls, in
    any order and with repetitions, running them one after the other from
    the tables [ds] gives the results the calls give when each is made
    alone on [ds], up to the first one that raises; the tables are left as
    they were or as [create_acv_chart] alone leaves them. *)
Theorem calls_compose_independently kind (vs : list view) (ds : Dataset) :
  fst (sequence (map (build kind) vs) ds)
  = comprehension (fun v => fst (build kind v ds)) vs /\
  (snd (sequence (map (build kind) vs) ds) = ds \/
   snd (sequence (map (build kind) vs) ds) = after_acv_chart ds).
Proof. apply sequence_from. now left. Qed.


Lemma comprehension_Forall2 {A B} (body : A -> result B) (l : list A) (bs : list B) :
  comprehension body l = Ok bs -> Forall2 (fun a b => body a = Ok b) l bs.
Proof.
  revert bs. induction l as [| a l IH]; intros bs H; cbn [comprehension] in H.
  - injection H as <-. constructor.
  - destruct (body a) as [b | e] eqn:E; cbn [rbind] in H; [| discriminate].
    destruct (comprehension body l) as [bs' | e]; cbn [rbind] in H; [| discriminate].
    injection H as <-. constructor; [exact E | now apply IH].
Qed.

Lemma sequence_reaches_acv kind (vs : list view) (ds s s' : Dataset) figs :
  s = ds \/ s = after_acv_chart ds ->
  sequence (map (build kind) vs) s = (Ok figs, s') ->
  (s = after_acv_chart ds \/ In AcvBands vs) -> s' = after_acv_chart ds.
Proof.
  revert s figs. induction vs as [| v vs IH]; intros s figs Hs Hrun Hacv.
  - cbn in Hrun. injection Hrun as _ <-. destruct Hacv as [H | []]. exact H.
  - cbn [map] in Hrun. rewrite sequence_cons in Hrun.
    destruct (build kind v s) as [[fig | e] s1] eqn:Eb; [| discriminate].
    destruct (sequence (map (build kind) vs) s1) as [[figs' | e] s2] eqn:Es;
      [| discriminate].
    injection Hrun as _ <-.
    destruct (view_eq_dec v AcvBands) as [-> | Hv].
    + assert (Hs1 : s1 = after_acv_chart ds).
      { change s1 with (snd (Ok fig, s1)). rewrite <- Eb.
        destruct Hs as [-> | ->]; [reflexivity |]. apply after_acv_chart_twice. }
      apply (IH s1 figs'); [now right | exact Es | now left].
    + assert (Hs1 : s1 = s).
      { change s1 with (snd (Ok fig, s1)). rewrite <- Eb.
        now apply build_reads_only. }
      rewrite Hs1 in Es. apply (IH s figs'); [exact Hs | exact Es |].
      destruct Hacv as [H | [H | H]]; [now left | congruence | now right].
Qed.

(** X2.  When the page's layout succeeds it returns eight figures, each
    the figure its chart function returns when called alone on the initial
    tables, and it leaves the tables as [create_acv_chart] alone does. *)
Theorem layout_is_the_eight_calls_alone kind (ds ds' : Dataset) (figures : list Figure) :
  layout kind ds = (Ok figures, ds') ->
  Forall2 (fun v figure => fst (build kind v ds) = Ok figure) page_views figures /\
  ds' = after_acv_chart ds.
Proof.
  intro H. split.
  - apply comprehension_Forall2.
    rewrite <- (proj1 (sequence_from kind page_views ds ds (or_introl eq_refl))).
    change (sequence (map (build kind) page_views)) with (layout kind).
    now rewrite H.
  - apply (sequence_reaches_acv kind page_views ds ds ds' figures);
      [now left | exact H | right; cbn; tauto].
Qed.

Lemma layout_of_the_module_tables :
  exists ds figures ds',
    module_tables = Ok ds /\
    layout insertion_sort ds = (Ok figures, ds') /\
    Forall2 (fun v figure => fst (build insertion_sort v ds) = Ok figure)
            page_views figures /\
    ds' = after_acv_chart ds.
Proof.
  eexists. eexists. eexists. split; [reflexivity |].
  split; [reflexivity |].
  apply (layout_is_the_eight_calls_alone insertion_sort). reflexivity.
Defined.

(** ** Tables without rows *)

(** X3.  A chart whose table has no rows raises a [KeyError] and leaves
    the tables as they are: for "Average" in the ERP chart (the labels are
    built first, over no row), "Month" in the cohort trend, "Bin" in the
    distribution chart, "N" in the ACV chart and "ACV" in the non-live
    chart. *)
Theorem charts_of_empty_tables_raise_KeyError kind (ds : Dataset) :
  (erp_data ds = empty_frame ->
   create_erp_chart ds = (Raise (KeyError (Str "Average")), ds)) /\
  (cohort_data ds = empty_frame ->
   create_cohort_trend ds = (Raise (KeyError (Str "Month")), ds)) /\
  (distribution_data ds = empty_frame ->
   create_distribution_chart ds = (Raise (KeyError (Str "Bin")), ds)) /\
  (acv_onboarding_data ds = empty_frame ->
   create_acv_chart ds = (Raise (KeyError (Str "N")), ds)) /\
  (non_live_data ds = empty_frame ->
   create_non_live_chart kind ds = (Raise (KeyError (Str "ACV")), ds)).
Proof.
  split; [| split; [| split; [| split]]]; intro H.
  - unfold create_erp_chart, bind, global. rewrite H. reflexivity.
  - unfold create_cohort_trend, bind, global. rewrite H. reflexivity.
  - unfold create_distribution_chart, bind, global. rewrite H. reflexivity.
  - rewrite create_acv_chart_run, H. reflexivity.
  - unfold create_non_live_chart, bind, global. rewrite H. reflexivity.
Qed.

Lemma charts_of_no_tables :
  let ds := mkDataset [] empty_frame empty_frame empty_frame empty_frame
                      empty_frame empty_frame empty_frame in
  create_erp_chart ds = (Raise (KeyError (Str "Average")), ds) /\
  create_cohort_trend ds = (Raise (KeyError (Str "Month")), ds) /\
  create_distribution_chart ds = (Raise (KeyError (Str "Bin")), ds) /\
  create_acv_chart ds = (Raise (KeyError (Str "N")), ds) /\
  create_non_live_chart insertion_sort ds = (Raise (KeyError (Str "ACV")), ds).
Proof.
  intro ds.
  destruct (charts_of_empty_tables_raise_KeyError insertion_sort ds)
    as [H1 [H2 [H3 [H4 H5]]]].
  split; [apply H1; reflexivity |]. split; [apply H2; reflexivity |].
  split; [apply H3; reflexivity |]. split; [apply H4; reflexivity |].
  apply H5; reflexivity.
Defined.

(** ** The ERP chart *)

Lemma col_apply_rev_rev (c : column) : col_apply (@rev) (col_apply (@rev) c) = c.
Proof. destruct c; simpl; now rewrite rev_involutive. Qed.

(** X5.  Reversing a frame as the ERP chart does, twice, gives back its
    rows and columns in their order, under a fresh range index. *)
Theorem reversing_twice_restores_the_rows (df : DataFrame) :
  erp_reversed_of (erp_reversed_of df) = reset_index df.
Proof.
  unfold erp_reversed_of, reset_index, iloc_reversed. cbn [index columns].
  rewrite !length_rev, !length_seq. f_equal.
  rewrite map_map. cbn [fst snd].
  induction (columns df) as [| [k c] cols IH]; cbn [map fst snd]; [reflexivity |].
  now rewrite col_apply_rev_rev, IH.
Qed.

Lemma erp_reversed_of_records (records : list Erp.row) :
  erp_reversed_of (mkDataFrame (seq 0 (length records)) (to_columns records))
  = mkDataFrame (seq 0 (length (rev records))) (to_columns (rev records)).
Proof.
  unfold erp_reversed_of, reset_index, iloc_reversed.
  cbn [index columns to_columns erp_records map fst snd col_apply].
  rewrite !length_rev, length_seq, <- !map_rev. reflexivity.
Qed.

Lemma iterrows_erp_labels (records : list Erp.row) :
  comprehension
    (fun row => (e <- row "ERP" ;; n <- row "N" ;; Ok [Val e; Lit " N="; Val n])%result)
    (iterrows (mkDataFrame (seq 0 (length records)) (to_columns records)))
  = Ok (map erp_label records).
Proof.
  unfold iterrows. cbn [index]. rewrite length_seq, comprehension_map.
  apply (iterate_records records _ (KeyError (Str "ERP"))). intro i.
  unfold row_at, getitem.
  cbn [columns to_columns erp_records assoc String.eqb Ascii.eqb Bool.eqb rbind col_values].
  rewrite !nth_error_map. destruct (nth_error records i); reflexivity.
Qed.

(** X4.  For every non-empty ERP table the ERP chart succeeds, changes no
    table and draws the records in reverse order: the bars hold the
    averages, the markers the medians, and both carry the labels
    "<ERP> N=<N>" of the same records. *)
Theorem erp_chart_draws_the_table_bottom_up (ds : Dataset) (records : list Erp.row) :
  records <> [] ->
  pd_DataFrame records = Ok (erp_data ds) ->
  create_erp_chart ds
  = (Ok [Bar (Values (map Int (rev (map Erp.Average records))))
             (Labels (rev (map erp_label records)))
             [color "blue"]
             (Values (map Int (rev (map Erp.Average records)))) [];
         Scatter (Values (map Int (rev (map Erp.Median records))))
                 (Labels (rev (map erp_label records)))
                 (Values [])],
     ds).
Proof.
  intros Hne H.
  assert (E : erp_data ds = mkDataFrame (seq 0 (length records)) (to_columns records)).
  { destruct records; [congruence |]. unfold pd_DataFrame in H. congruence. }
  unfold create_erp_chart, bind, global. cbv beta zeta iota. rewrite E.
  rewrite (erp_reversed_of_records records). unfold lift.
  rewrite iterrows_erp_labels. cbn -[rev color].
  rewrite <- !map_rev. reflexivity.
Qed.

(** ** The ACV-band chart *)

Lemma frame_of_records {R} `{Records R} (records : list R) (df : DataFrame) :
  records <> [] ->
  pd_DataFrame records = Ok df ->
  df = mkDataFrame (seq 0 (length records)) (to_columns records).
Proof.
  intros Hne H0. destruct records; [congruence |]. unfold pd_DataFrame in H0. congruence.
Qed.

Lemma Zsum_nonzero_nonempty (ns : list Z) : Zsum ns <> 0 -> ns <> [].
Proof. intros H ->. now apply H. Qed.



(** X7.  When the counts of the ACV-band table add up to zero (no record
    included), the ACV chart raises and leaves every table as it was: no
    column is assigned. *)
Theorem failed_acv_chart_changes_nothing (ds : Dataset) (records : list Acv.row) :
  pd_DataFrame records = Ok (acv_onboarding_data ds) ->
  Zsum (map Acv.N records) = 0 ->
  exists e, create_acv_chart ds = (Raise e, ds).
Proof.
  intros H Ht. rewrite create_acv_chart_run.
  destruct records as [| r rest].
  - unfold pd_DataFrame in H. injection H as <-. eexists. reflexivity.
  - apply frame_of_records in H; [| discriminate].
    assert (Hn : getitem (acv_onboarding_data ds) "N"
                 = Ok (IntCol (map Acv.N (r :: rest)))).
    { rewrite H. reflexivity. }
    rewrite (assign_pct_int_counts _ _ Hn), Ht, percent_cells_of_zero by discriminate.
    eexists. reflexivity.
Qed.

(** ** The distribution and cohort charts *)

(** X12.  For every non-empty distribution table the distribution chart
    succeeds, changes no table and draws one bar per record in table
    order: green for the bins "0-20" and "20-40", red for "100+", blue
    otherwise, with the percentage as height and as text. *)
Theorem distribution_chart_draws_the_table (ds : Dataset) (records : list Dist.row) :
  records <> [] ->
  pd_DataFrame records = Ok (distribution_data ds) ->
  create_distribution_chart ds
  = (Ok [Bar (Values (map (fun r => Str (Dist.Bin r)) records))
             (Values (map (fun r => Int (Dist.Pct r)) records))
             (map (fun r => bin_color (Dist.Bin r)) records)
             (Labels (map (fun r => [Val (Int (Dist.Pct r)); Lit "%"]) records))
             []],
     ds).
Proof.
  intros Hne H. apply (frame_of_records _ _ Hne) in H.
  unfold create_distribution_chart, bind, global, lift, ret. rewrite H.
  cbn -[color]. rewrite !map_map. reflexivity.
Qed.

(** X13.  For every non-empty cohort table the cohort trend succeeds,
    changes no table and draws one point per record in table order, the
    average days as height and as text. *)
Theorem cohort_trend_draws_the_table (ds : Dataset) (records : list Cohort.row) :
  records <> [] ->
  pd_DataFrame records = Ok (cohort_data ds) ->
  create_cohort_trend ds
  = (Ok [Scatter (Values (map (fun r => Str (Cohort.Month r)) records))
                 (Values (map (fun r => Int (Cohort.Avg_Days r)) records))
                 (Values (map (fun r => Int (Cohort.Avg_Days r)) records))],
     ds).
Proof.
  intros Hne H. apply (frame_of_records _ _ Hne) in H.
  unfold create_cohort_trend, bind, global, lift, ret. rewrite H.
  cbn. rewrite !map_map. reflexivity.
Qed.

(** ** Bounds on the percentage column *)











(** ** The non-live chart *)

Lemma take_list_map {A B} (f : A -> B) (p : list nat) (l : list A) :
  take_list p B (map f l) = map f (take_list p A l).
Proof.
  induction p as [| i p IH]; [reflexivity |].
  rewrite !take_list_cons, IH, map_app, nth_error_map.
  destruct (nth_error l i); reflexivity.
Qed.

Lemma take_list_permutation {A} (p : list nat) (l : list A) :
  Permutation p (seq 0 (length l)) -> Permutation (take_list p A l) l.
Proof.
  intro H. rewrite <- (take_list_all l) at 2.
  unfold take_list. now apply Permutation_flat_map.
Qed.


Lemma color_of_known_category (c : string) :
  In c known_categories ->
  scalar_key_get
    [("Never Onboarded", color "gray"); ("On Hold", color "gray");
     ("At Risk", color "orange"); ("Low Risk", color "green")] (Str c)
  = Ok (category_color c).
Proof.
  intros [<- | [<- | [<- | [<- | []]]]]; reflexivity.
Qed.


Lemma iterrows_non_live (idx : list nat) (rows : list NonLive.row) {B}
      (body : (string -> result scalar) -> result B) (cell : NonLive.row -> B)
      (e : exn) :
  length idx = length rows ->
  (forall i, body (row_at (mkDataFrame idx (to_columns rows)) i)
             = match nth_error rows i with
               | Some r => Ok (cell r)
               | None => Raise e
               end) ->
  comprehension body (iterrows (mkDataFrame idx (to_columns rows)))
  = Ok (map cell rows).
Proof.
  intros Hlen H. unfold iterrows. cbn [index]. rewrite Hlen, comprehension_map.
  now apply (iterate_records rows cell e).
Qed.

(** The chart, once the frame is sorted into the rows [rows]. *)
Lemma non_live_chart_of_sorted (kind : sorter) (ds : Dataset)
      (records : list NonLive.row) :
  records <> [] ->
  pd_DataFrame records = Ok (non_live_data ds) ->
  all_finite (map NonLive.ACV records) ->
  sorter_contract kind ->
  exists rows,
    Permutation rows records /\
    ascending_by F.ltb (map NonLive.ACV rows) /\
    fst (create_non_live_chart kind ds)
    = (colors <- comprehension
              (scalar_key_get
                 [("Never Onboarded", color "gray"); ("On Hold", color "gray");
                  ("At Risk", color "orange"); ("Low Risk", color "green")])
              (map (fun r => Str (NonLive.Category r)) rows) ;;
       Ok (non_live_bars rows colors))%result /\
    snd (create_non_live_chart kind ds) = ds.
Proof.
  intros Hne H Hf Hkind. apply (frame_of_records _ _ Hne) in H.
  set (keys := map NonLive.ACV records) in *.
  set (p := column_argsort kind (FloatCol keys) true).
  destruct (argsort_of_finite kind Hkind keys Hf) as [Hp [Hperm Hasc]].
  fold p in Hp, Hperm, Hasc.
  assert (Hlen : length keys = length records) by apply length_map.
  rewrite Hlen in Hp.
  exists (take_list p _ records).
  split; [now apply take_list_permutation |].
  split. { unfold keys in Hasc. rewrite take_list_map in Hasc. exact Hasc. }
  split; [| apply create_non_live_chart_reads_only].
  assert (Hrange : Forall (fun i => (i < length records)%nat) p)
    by now apply permutation_range.
  set (rows' := take_list p _ records).
  assert (Hsorted : sort_values kind (non_live_data ds) "ACV" true
                    = Ok (mkDataFrame (take_list p nat (seq 0 (length records)))
                                      (to_columns rows'))).
  { rewrite H. unfold sort_values, getitem.
    cbn [columns to_columns non_live_records assoc String.eqb Ascii.eqb Bool.eqb rbind].
    fold keys. fold p. unfold take.
    cbn [index columns map fst snd col_apply to_columns non_live_records].
    unfold keys, rows'. rewrite !take_list_map. reflexivity. }
  assert (Hidx : length (take_list p nat (seq 0 (length records))) = length rows').
  { unfold rows'. rewrite !take_list_length; [reflexivity | exact Hrange |].
    now rewrite length_seq. }
  unfold create_non_live_chart, bind, global, lift, ret. cbv beta zeta iota.
  rewrite Hsorted.
  rewrite (iterrows_non_live _ rows' _ non_live_label (KeyError (Str "Category")) Hidx).
  2:{ intro i. unfold row_at, getitem.
      cbn [columns to_columns non_live_records assoc String.eqb Ascii.eqb Bool.eqb
           rbind col_values].
      rewrite !nth_error_map. destruct (nth_error rows' i); reflexivity. }
  rewrite (iterrows_non_live _ rows' _ non_live_text (KeyError (Str "ACV")) Hidx).
  2:{ intro i. unfold row_at, getitem.
      cbn [columns to_columns non_live_records assoc String.eqb Ascii.eqb Bool.eqb
           rbind col_values].
      rewrite !nth_error_map. destruct (nth_error rows' i); reflexivity. }
  unfold getitem.
  cbn [columns to_columns non_live_records assoc String.eqb Ascii.eqb Bool.eqb
       col_values fst snd].
  rewrite !map_map.
  destruct (comprehension _ _) as [colors | e] eqn:Ec; cbn [fst rbind]; [| reflexivity].
  reflexivity.
Qed.

Lemma pair_eq {A B} (p : A * B) (a : A) (b : B) : fst p = a -> snd p = b -> p = (a, b).
Proof. destruct p. cbn. now intros -> ->. Qed.

(** X10.  For every non-empty non-live table with finite ACV values and
    known categories, and every sorting algorithm within the library's
    promise, the non-live chart succeeds and changes no table; its bars
    are the records rearranged by ascending ACV, and the value, label,
    colour and text at each position belong to the same record. *)
Theorem non_live_chart_draws_rows_by_ascending_acv
        (kind : sorter) (ds : Dataset) (records : list NonLive.row) :
  sorter_contract kind ->
  records <> [] ->
  pd_DataFrame records = Ok (non_live_data ds) ->
  all_finite (map NonLive.ACV records) ->
  Forall (fun r => In (NonLive.Category r) known_categories) records ->
  exists rows,
    Permutation rows records /\
    ascending_by F.ltb (map NonLive.ACV rows) /\
    create_non_live_chart kind ds
    = (Ok (non_live_bars rows (map (fun r => category_color (NonLive.Category r)) rows)),
       ds).
Proof.
  intros Hkind Hne H Hf Hknown.
  destruct (non_live_chart_of_sorted kind ds records Hne H Hf Hkind)
    as [rows [Hperm [Hasc [Hfig Hds]]]].
  exists rows. split; [exact Hperm |]. split; [exact Hasc |].
  apply pair_eq; [| exact Hds]. rewrite Hfig.
  rewrite (comprehension_ok _ (fun v => match v with
                                        | Str c => category_color c
                                        | _ => EmptyString
                                        end)).
  - cbn [rbind]. now rewrite map_map.
  - intros v Hv. apply in_map_iff in Hv. destruct Hv as [r [<- Hr]].
    apply color_of_known_category.
    rewrite Forall_forall in Hknown. apply Hknown.
    apply (Permutation_in _ Hperm Hr).
Qed.


Lemma non_live_chart_of_the_module_tables :
  exists ds rows,
    module_tables = Ok ds /\
    Permutation rows non_live_records_literal /\
    ascending_by F.ltb (map NonLive.ACV rows) /\
    create_non_live_chart insertion_sort ds
    = (Ok (non_live_bars rows (map (fun r => category_color (NonLive.Category r)) rows)),
       ds).
Proof.
  pose (ds := match module_tables with
              | Ok d => d
              | Raise _ => mkDataset [] empty_frame empty_frame empty_frame empty_frame
                                     empty_frame empty_frame empty_frame
              end).
  destruct (non_live_chart_draws_rows_by_ascending_acv
              insertion_sort ds non_live_records_literal)
    as [rows [H1 [H2 H3]]].
  - exact insertion_sort_contract.
  - discriminate.
  - reflexivity.
  - repeat constructor.
  - repeat constructor; cbn; tauto.
  - exists ds, rows. split; [reflexivity |]. split; [exact H1 |].
    split; [exact H2 | exact H3].
Defined.


(** ** Witnesses on the module's tables *)

Lemma erp_chart_of_the_module_tables :
  create_erp_chart loaded_tables
  = (Ok [Bar (Values (map Int (rev (map Erp.Average erp_records_literal))))
             (Labels (rev (map erp_label erp_records_literal)))
             [color "blue"]
             (Values (map Int (rev (map Erp.Average erp_records_literal)))) [];
         Scatter (Values (map Int (rev (map Erp.Median erp_records_literal))))
                 (Labels (rev (map erp_label erp_records_literal)))
                 (Values [])],
     loaded_tables).
Proof.
  apply (erp_chart_draws_the_table_bottom_up loaded_tables erp_records_literal).
  - discriminate.
  - reflexivity.
Defined.


Lemma acv_chart_of_zero_counts :
  let ds := mkDataset [] empty_frame empty_frame empty_frame empty_frame
                      (mkDataFrame (seq 0 1)
                         (to_columns [Acv.Build_row "<$5K" 42 0 3864]))
                      empty_frame empty_frame in
  exists e, create_acv_chart ds = (Raise e, ds).
Proof.
  intro ds.
  apply (failed_acv_chart_changes_nothing ds [Acv.Build_row "<$5K" 42 0 3864]);
    reflexivity.
Defined.

Lemma distribution_chart_of_the_module_tables :
  create_distribution_chart loaded_tables
  = (Ok [Bar (Values (map (fun r => Str (Dist.Bin r)) distribution_records))
             (Values (map (fun r => Int (Dist.Pct r)) distribution_records))
             (map (fun r => bin_color (Dist.Bin r)) distribution_records)
             (Labels (map (fun r => [Val (Int (Dist.Pct r)); Lit "%"])
                          distribution_records))
             []],
     loaded_tables).
Proof.
  apply (distribution_chart_draws_the_table loaded_tables distribution_records).
  - discriminate.
  - reflexivity.
Defined.

Lemma cohort_trend_of_the_module_tables :
  create_cohort_trend loaded_tables
  = (Ok [Scatter (Values (map (fun r => Str (Cohort.Month r)) cohort_records_literal))
                 (Values (map (fun r => Int (Cohort.Avg_Days r)) cohort_records_literal))
                 (Values (map (fun r => Int (Cohort.Avg_Days r)) cohort_records_literal))],
     loaded_tables).
Proof.
  apply (cohort_trend_draws_the_table loaded_tables cohort_records_literal).
  - discriminate.
  - reflexivity.
Defined.


(** ** The charts written out by hand *)

(** X14.  The KPI cards do not read [kpi_data]: the same five cards are
    returned whatever the tables hold.  On the module's tables the five
    numbers shown are the entries avg_onboarding, median_onboarding,
    pct_under_20, pct_20_to_40 and at_risk_customers of [kpi_data]. *)
Theorem kpi_cards_repeat_the_kpi_data :
  exists cards,
    (forall ds, create_kpi_cards ds = (Ok cards, ds)) /\
    Forall2 (fun key card =>
               exists v, indicator_value card = Some v /\
                         dict_get (kpi_data loaded_tables) key = Ok (Int v))
            ["avg_onboarding"; "median_onboarding"; "pct_under_20"; "pct_20_to_40";
             "at_risk_customers"]
            cards.
Proof.
  eexists. split; [intro ds; reflexivity |].
  repeat constructor; eexists; split; reflexivity.
Qed.

(** X15.  The at-risk chart does not read [at_risk_breakdown]: the same
    two bars, 54 and 18, are returned whatever the tables hold.  They are
    the counts of the module's table, and the percentages in their texts,
    75 and 25, are the rounded shares of 54 and 18 in their total 72. *)
Theorem at_risk_bars_repeat_the_breakdown :
  (forall ds,
     create_at_risk_breakdown ds
     = (Ok [Bar (Values [Int 54]) (Labels [[Lit "At Risk (N=72)"]]) [color "orange"]
                (Labels [[Lit "54 (75%)"]]) [];
            Bar (Values [Int 18]) (Labels [[Lit "At Risk (N=72)"]]) [color "light_orange"]
                (Labels [[Lit "18 (25%)"]]) []],
        ds)) /\
  int_cells (at_risk_breakdown loaded_tables) "Count" = Ok [54; 18] /\
  Zsum [54; 18] = 72 /\
  percent 72 54 = 75 /\
  percent 72 18 = 25.
Proof. split; [intro ds; reflexivity |]. repeat split; reflexivity. Qed.

(** X16.  The three lists handed to the treemap describe a tree: they
    have eleven entries each, the labels are distinct, "All Customers" is
    the only node without a parent, and every other node names as parent a
    label that comes before it in the list. *)
Theorem treemap_lists_describe_a_tree :
  (forall ds,
     create_segmentation_chart ds
     = (Ok [Treemap segmentation_labels segmentation_parents segmentation_values
                    ["white"; "#1f77b4"; "#7f7f7f"; "#1f77b4"; "#d62728"; "#aec7e8";
                     "#d62728"; "#7f7f7f"; "#7f7f7f"; "#ff7f0e"; "#2ca02c"]],
        ds)) /\
  length segmentation_labels = 11%nat /\
  length segmentation_parents = 11%nat /\
  length segmentation_values = 11%nat /\
  NoDup segmentation_labels /\
  filter (fun n => String.eqb (node_parent n) EmptyString) segmentation_nodes
  = [("All Customers", EmptyString, Finite 9.0)] /\
  (forall before child after,
     segmentation_nodes = (before ++ child :: after)%list ->
     node_parent child = EmptyString \/
     In (node_parent child) (map node_label before)).
Proof.
  split; [intro ds; reflexivity |].
  split; [reflexivity |]. split; [reflexivity |]. split; [reflexivity |].
  split.
  { repeat constructor; cbn; intuition discriminate. }
  split; [reflexivity |].
  intros before child after H.
  unfold segmentation_nodes, nodes_of, segmentation_labels, segmentation_parents,
    segmentation_values in H. cbn [combine] in H.
  repeat (destruct before as [| ? before];
          [ injection H as <- _; cbn; tauto
          | injection H as <- H ]).
  destruct before; discriminate.
Qed.
